(** * The upload page of the hex colour detector (src/app/page.tsx)

    A shallow embedding of the [Home] component: its five [useState] fields,
    the zod schema [fileSchema], and the handlers [calculateFileHash],
    [handleFileChange], [handleUpload] and [copyToClipboard].

    The handlers are written in a small state-and-exception monad over a
    [World] that holds the live React store, the counters of the browser
    objects that hand out identifiers, and the log of every call that leaves
    the component (toasts, timers, HTTP, clipboard, console, setters).  What
    the browser, the network and the build configuration answer is gathered
    in an [Env] record over which every theorem quantifies.

    A handler is a closure of one render: it reads the fields of that render
    (its [snap] argument) and its setters act on the live store, which other
    handlers may have changed while this one was suspended at an [await].
    A run is taken from the point where the handler resumes after its last
    suspension before its first effect; nothing is interleaved after that. *)

From Stdlib Require Import Bool List String Ascii NArith ZArith Lia.
From Stdlib Require Import Strings.Byte.
Import ListNotations.

Local Open Scope string_scope.
Local Open Scope list_scope.

(** ** Values that cross the component's boundary *)

(** A [File] handle as the picker delivers it: the fields the page reads.
    The bytes are read through the environment ([env_arrayBuffer]). *)
Record File : Type := mkFile {
  name : string;
  size : N;
  type : string
}.

(** A value typed [string] in the source that may be [undefined] at run time
    ([response.data.hex_color] is [any]); [None] stands for [undefined]. *)
Definition js_string : Type := option string.

(** JavaScript truthiness of such a value: [undefined] and the empty string
    are falsy. *)
Definition truthy (v : js_string) : bool :=
  match v with
  | Some (String _ _) => true
  | _ => false
  end.

(** Values that can be thrown into the [catch] of [handleUpload]. *)
Inductive js_error : Type :=
| AxiosHttpError (status : Z)      (* axios rejection that carries a response *)
| AxiosNetworkError                (* axios rejection without a response *)
| TypeError (msg : string)
| Error (msg : string)
| DOMException (msg : string).

(** [error.response?.status] *)
Definition response_status (error : js_error) : option Z :=
  match error with
  | AxiosHttpError status => Some status
  | _ => None
  end.

Inductive js_result (A : Type) : Type :=
| Ok (a : A)
| Throw (e : js_error).
Arguments Ok {A} a.
Arguments Throw {A} e.

(** [response.data] of a resolved request: nullish, or something whose
    [hex_color] member is read (absent members read as [undefined]). *)
Inductive payload : Type :=
| NoData
| Data (hex_color : js_string).

Definition FormData : Type := list (string * File).

(** ** The environment *)

Record Env : Type := mkEnv {
  (** [process.env.NEXT_PUBLIC_API_URL] *)
  env_NEXT_PUBLIC_API_URL : js_string;
  (** [file.arrayBuffer()] *)
  env_arrayBuffer : File -> js_result (list byte);
  (** [crypto.subtle.digest(algorithm, buffer)] *)
  env_digest : string -> list byte -> js_result (list byte);
  (** [axios.post(url, formData)]: resolves with [response.data] or rejects *)
  env_post : string -> FormData -> js_result payload;
  (** [URL.createObjectURL(file)], by the number of URLs handed out so far *)
  env_createObjectURL : nat -> File -> string;
  (** [navigator.clipboard.writeText(text)]: [true] when the promise resolves *)
  env_writeText : string -> bool
}.

(** ** Session state: the five [useState] fields *)

Record State : Type := mkState {
  file : option File;
  hexColor : js_string;
  preview : string;
  loading : bool;
  previousHash : string
}.

Definition initialState : State :=
  {| file := None; hexColor := Some ""; preview := "";
     loading := false; previousHash := "" |}.

(** A call of one of the five setters. *)
Inductive update : Type :=
| setFile (f : option File)
| setHexColor (c : js_string)
| setPreview (p : string)
| setLoading (b : bool)
| setPreviousHash (h : string).

Definition apply_update (u : update) (s : State) : State :=
  match u with
  | setFile f =>
      {| file := f; hexColor := hexColor s; preview := preview s;
         loading := loading s; previousHash := previousHash s |}
  | setHexColor c =>
      {| file := file s; hexColor := c; preview := preview s;
         loading := loading s; previousHash := previousHash s |}
  | setPreview p =>
      {| file := file s; hexColor := hexColor s; preview := p;
         loading := loading s; previousHash := previousHash s |}
  | setLoading b =>
      {| file := file s; hexColor := hexColor s; preview := preview s;
         loading := b; previousHash := previousHash s |}
  | setPreviousHash h =>
      {| file := file s; hexColor := hexColor s; preview := preview s;
         loading := loading s; previousHash := h |}
  end.

(** ** Effects *)

Inductive toast_kind : Type := Loading | Success | Failure.

Definition toast_id : Type := nat.

(** The function passed to [setTimeout] in the duplicate branch, closed over
    the identifier of the pending toast. *)
Inductive callback : Type :=
| DismissThenSuccess (loadingToast : toast_id) (msg : string).

Inductive effect : Type :=
| Toast (k : toast_kind) (id : toast_id) (msg : string)
| Dismiss (id : toast_id)          (* toast.dismiss(id) *)
| DismissAll                       (* toast.dismiss() *)
| SetTimeout (cb : callback) (ms : Z)
| HttpPost (url : string) (body : FormData)
| ConsoleError (msg : string) (e : js_error)
| ClipboardWrite (text : string)
| CreateObjectURL (f : File) (url : string)
| SetState (u : update).

Record World : Type := mkWorld {
  store : State;          (* the live React state *)
  next_toast : nat;       (* identifiers handed out by the toaster *)
  next_url : nat;         (* object URLs handed out so far *)
  log : list effect       (* oldest first *)
}.

(** ** The monad of handlers *)

Definition M (A : Type) : Type := World -> js_result A * World.

Definition ret {A} (a : A) : M A := fun w => (Ok a, w).

Definition bind {A B} (m : M A) (k : A -> M B) : M B :=
  fun w =>
    match m w with
    | (Ok a, w') => k a w'
    | (Throw e, w') => (Throw e, w')
    end.

Definition throw {A} (e : js_error) : M A := fun w => (Throw e, w).

(** Awaiting a promise whose outcome the environment fixes. *)
Definition await {A} (r : js_result A) : M A := fun w => (r, w).

Notation "x <- m ;; k" := (bind m (fun x => k))
  (at level 61, m at next level, right associativity).
Notation "m ;; k" := (bind m (fun _ => k))
  (at level 61, right associativity).

(** [try { body } catch (error) { handler error } finally { cleanup }] *)
Definition try_catch_finally (body : M unit) (handler : js_error -> M unit)
    (cleanup : M unit) : M unit :=
  fun w =>
    match body w with
    | (Ok _, w1) => cleanup w1
    | (Throw e, w1) =>
        match handler e w1 with
        | (Ok _, w2) => cleanup w2
        | (Throw e', w2) =>
            match cleanup w2 with
            | (Ok _, w3) => (Throw e', w3)
            | (Throw e'', w3) => (Throw e'', w3)
            end
        end
    end.

Definition emit (e : effect) : M unit :=
  fun w =>
    (Ok tt, {| store := store w; next_toast := next_toast w;
               next_url := next_url w; log := log w ++ [e] |}).

Definition setState (u : update) : M unit :=
  fun w =>
    (Ok tt, {| store := apply_update u (store w); next_toast := next_toast w;
               next_url := next_url w; log := log w ++ [SetState u] |}).

(** [toast.loading], [toast.success], [toast.error]: each returns the
    identifier of the toast it creates. *)
Definition toast (k : toast_kind) (msg : string) : M toast_id :=
  fun w =>
    (Ok (next_toast w),
     {| store := store w; next_toast := S (next_toast w);
        next_url := next_url w;
        log := log w ++ [Toast k (next_toast w) msg] |}).

Definition createObjectURL (env : Env) (f : File) : M string :=
  fun w =>
    let url := env_createObjectURL env (next_url w) f in
    (Ok url,
     {| store := store w; next_toast := next_toast w;
        next_url := S (next_url w);
        log := log w ++ [CreateObjectURL f url] |}).

Definition run_callback (cb : callback) : M unit :=
  match cb with
  | DismissThenSuccess loadingToast msg =>
      emit (Dismiss loadingToast) ;;
      toast Success msg ;;
      ret tt
  end.

(** ** [fileSchema]

    [z.custom<File>(instanceof).refine(size).refine(type)].  The [custom]
    test holds of every [File]; each [refine] that fails adds one issue, in
    the order the refinements are chained, and does not stop the later ones. *)

Record refinement : Type := mkRefinement {
  check : File -> bool;
  message : string
}.

Definition MAX_SIZE : N := 3 * 1024 * 1024.

Definition ACCEPTED_TYPES : list string :=
  ["image/jpeg"; "image/png"; "image/jpg"].

(** [Array.prototype.includes] on strings *)
Definition includes (l : list string) (x : string) : bool :=
  existsb (String.eqb x) l.

Definition size_message : string := "Ukuran file maksimal 3MB".
Definition type_message : string :=
  "Hanya mendukung file berformat JPEG atau PNG".

Definition fileSchema : list refinement :=
  [ {| check := fun file => (size file <=? MAX_SIZE)%N;
       message := size_message |};
    {| check := fun file => includes ACCEPTED_TYPES (type file);
       message := type_message |} ].

(** The result of [safeParse]: [errors] is [validation.error.errors] (empty
    exactly when [validation.success]). *)
Definition safeParse (schema : list refinement) (value : File) : list string :=
  map message (filter (fun r => negb (check r value)) schema).

(** ** [calculateFileHash] *)

Definition hex_digit (d : N) : ascii :=
  nth (N.to_nat d)
      (list_ascii_of_string "0123456789abcdef") "0"%char.

Fixpoint toString16_aux (fuel : nat) (n : N) (acc : string) : string :=
  let acc' := String (hex_digit (n mod 16)) acc in
  match fuel with
  | O => acc'
  | S fuel' =>
      if (n / 16 =? 0)%N then acc' else toString16_aux fuel' (n / 16) acc'
  end.

(** [n.toString(16)] for a non-negative integer *)
Definition toString16 (n : N) : string :=
  toString16_aux (N.to_nat (N.log2 n)) n "".

(** The first [n] characters of [pad] repeated for ever ([cur] is what is
    left of the current copy). *)
Fixpoint cycle (n : nat) (pad cur : string) : string :=
  match n with
  | O => ""
  | S n' =>
      match cur with
      | String c rest => String c (cycle n' pad rest)
      | EmptyString =>
          match pad with
          | String c rest => String c (cycle n' pad rest)
          | EmptyString => ""
          end
      end
  end.

(** [s.padStart(targetLength, pad)] *)
Definition padStart (targetLength : nat) (pad : string) (s : string) : string :=
  cycle (targetLength - String.length s) pad pad ++ s.

(** [hashArray.map((b) => b.toString(16).padStart(2, "0")).join("")] *)
Definition hex_of_bytes (hashArray : list byte) : string :=
  String.concat ""
    (map (fun b => padStart 2 "0" (toString16 (Byte.to_N b))) hashArray).

Definition calculateFileHash (env : Env) (file : File) : js_result string :=
  match env_arrayBuffer env file with
  | Throw e => Throw e
  | Ok buffer =>
      match env_digest env "SHA-256" buffer with
      | Throw e => Throw e
      | Ok hashBuffer => Ok (hex_of_bytes hashBuffer)
      end
  end.

(** ** [handleFileChange] *)

Definition handleFileChange (env : Env) (uploadedFiles : list File) : M unit :=
  match uploadedFiles with
  | [] => ret tt
  | uploadedFile :: _ =>
      match safeParse fileSchema uploadedFile with
      | first :: _ =>
          toast Failure (if truthy (Some first) then first
                         else "File tidak valid") ;;
          ret tt
      | [] =>
          setState (setFile (Some uploadedFile)) ;;
          url <- createObjectURL env uploadedFile ;;
          setState (setPreview url) ;;
          setState (setHexColor (Some ""))
      end
  end.

(** ** [handleUpload]

    [snap] is the render the handler was created in: [file] and
    [previousHash] are read from it, while the setters act on the live
    store of the world. *)

Definition no_file_message : string := "Silakan upload file terlebih dahulu!".
Definition duplicate_pending_message : string :=
  "Gambar sudah diproses sebelumnya...".
Definition duplicate_done_message : string :=
  "Gambar sudah diproses sebelumnya!".
Definition uploading_message : string := "Mengunggah file...".
Definition uploaded_message : string := "File berhasil diunggah!".
Definition too_large_message : string :=
  "File terlalu besar! Ukuran file harus di bawah 3MB.".
Definition generic_failure_message : string :=
  "Gagal mengunggah file! Silakan coba lagi.".

(** [response.data.hex_color]: a [TypeError] on nullish data *)
Definition read_hex_color (data : payload) : js_result js_string :=
  match data with
  | NoData => Throw (TypeError "Cannot read properties of undefined")
  | Data hex_color => Ok hex_color
  end.

(** The body of the [try] block. *)
Definition upload_try (env : Env) (snap : State) (file : File) : M unit :=
  currentHash <- await (calculateFileHash env file) ;;
  if String.eqb currentHash (previousHash snap) then
    loadingToast <- toast Loading duplicate_pending_message ;;
    emit (SetTimeout (DismissThenSuccess loadingToast duplicate_done_message)
                     2000)
  else
    setState (setLoading true) ;;
    loadingToast <- toast Loading uploading_message ;;
    let formData : FormData := [("file", file)] in
    match env_NEXT_PUBLIC_API_URL env with
    | Some (String _ _ as apiUrl) =>
        emit (HttpPost apiUrl formData) ;;
        data <- await (env_post env apiUrl formData) ;;
        emit (Dismiss loadingToast) ;;
        toast Success uploaded_message ;;
        hex_color <- await (read_hex_color data) ;;
        setState (setHexColor hex_color) ;;
        setState (setPreviousHash currentHash)
    | _ => throw (Error "API URL is not defined")     (* [!apiUrl] *)
    end.

(** [error.response?.status === 413] *)
Definition status_is_413 (error : js_error) : bool :=
  match response_status error with
  | Some status => (status =? 413)%Z
  | None => false
  end.

(** The [catch] block. *)
Definition upload_catch (error : js_error) : M unit :=
  emit DismissAll ;;
  if status_is_413 error then
    toast Failure too_large_message ;;
    ret tt
  else
    emit (ConsoleError "Error uploading file:" error) ;;
    toast Failure generic_failure_message ;;
    ret tt.

Definition handleUpload (env : Env) (snap : State) : M unit :=
  match file snap with
  | None =>
      toast Failure no_file_message ;;
      ret tt
  | Some file =>
      try_catch_finally
        (upload_try env snap file)
        upload_catch
        (setState (setLoading false))
  end.

(** ** [copyToClipboard] *)

Definition copied_message : string := "Kode HEX berhasil disalin!".
Definition copy_failed_message : string := "Gagal menyalin kode HEX.".

Definition copyToClipboard (env : Env) (snap : State) : M unit :=
  match hexColor snap with
  | Some (String _ _ as text) =>
      emit (ClipboardWrite text) ;;
      (if env_writeText env text
       then toast Success copied_message
       else toast Failure copy_failed_message) ;;
      ret tt
  | _ => ret tt
  end.

(** ** What is rendered, and the two buttons *)

Record View : Type := mkView {
  preview_image : option string;     (* [{preview && <Image src={preview}/>}] *)
  submit_disabled : bool;            (* [disabled={loading}] *)
  submit_label : string;
  swatch : option string             (* [{hexColor && <button ...>}] *)
}.

Definition render (s : State) : View :=
  {| preview_image := if truthy (Some (preview s)) then Some (preview s)
                      else None;
     submit_disabled := loading s;
     submit_label := if loading s then "Memproses..." else "Unggah dan Proses";
     swatch := if truthy (hexColor s) then hexColor s else None |}.

(** A click on the submit button of the current render: a disabled button
    delivers no click. *)
Definition click_submit (env : Env) : M unit :=
  fun w =>
    if submit_disabled (render (store w)) then (Ok tt, w)
    else handleUpload env (store w) w.

(** A click on the swatch, which exists only while it is rendered. *)
Definition click_swatch (env : Env) : M unit :=
  fun w =>
    match swatch (render (store w)) with
    | Some _ => copyToClipboard env (store w) w
    | None => (Ok tt, w)
    end.

(** The page as first mounted: the initial fields, nothing logged. *)
Definition mount : World :=
  {| store := initialState; next_toast := 0; next_url := 0; log := [] |}.

(** ** Reading a run *)

(** The effects a run appends to the log. *)
Definition trace {A} (m : M A) (w : World) : list effect :=
  skipn (List.length (log w)) (log (snd (m w))).

(** The live store once the run is over. *)
Definition store_after {A} (m : M A) (w : World) : State :=
  store (snd (m w)).

Definition is_http (e : effect) : bool :=
  match e with HttpPost _ _ => true | _ => false end.

Definition sets_busy (e : effect) : bool :=
  match e with SetState (setLoading true) => true | _ => false end.

Definition failure_messages (es : list effect) : list string :=
  flat_map (fun e => match e with
                     | Toast Failure _ msg => [msg]
                     | _ => []
                     end) es.

(** ** Runs as equations

    [extend w st n u es] is [w] after a run that left the store at [st],
    created [n] toasts and [u] object URLs, and appended [es] to the log. *)
Definition extend (w : World) (st : State) (n u : nat) (es : list effect)
  : World :=
  {| store := st; next_toast := n + next_toast w;
     next_url := u + next_url w; log := log w ++ es |}.

(** What the [catch] block appends for [error]. *)
Definition catch_effects (id : toast_id) (error : js_error) : list effect :=
  if status_is_413 error
  then [DismissAll; Toast Failure id too_large_message]
  else [DismissAll; ConsoleError "Error uploading file:" error;
        Toast Failure id generic_failure_message].

(** The store after the cleanup [setLoading(false)]. *)
Definition idle (s : State) : State := apply_update (setLoading false) s.

(** The two events that open every submission that gets past the duplicate
    test. *)
Definition sending (id : toast_id) : list effect :=
  [SetState (setLoading true); Toast Loading id uploading_message].

(** The concrete page used by the examples below. *)
Module Sample.

Definition photo : File :=
  {| name := "photo.jpg"; size := 2 * 1024 * 1024; type := "image/jpeg" |}.

Definition digest_bytes : list byte := [x3a; x07; xbd; x50].

Definition env : Env :=
  {| env_NEXT_PUBLIC_API_URL := Some "https://api.example.test/color";
     env_arrayBuffer := fun _ => Ok [x89; x50];
     env_digest := fun _ _ => Ok digest_bytes;
     env_post := fun _ _ => Ok (Data (Some "#112233"));
     env_createObjectURL := fun _ _ => "blob:preview";
     env_writeText := fun _ => true |}.

(** The same deployment without the endpoint address. *)
Definition env_no_url : Env :=
  {| env_NEXT_PUBLIC_API_URL := None;
     env_arrayBuffer := env_arrayBuffer env;
     env_digest := env_digest env;
     env_post := env_post env;
     env_createObjectURL := env_createObjectURL env;
     env_writeText := env_writeText env |}.

(** [photo] chosen, nothing submitted yet. *)
Definition chosen : State :=
  {| file := Some photo; hexColor := Some ""; preview := "blob:preview";
     loading := false; previousHash := "" |}.

(** [photo] chosen again after it was processed. *)
Definition processed : State :=
  {| file := Some photo; hexColor := Some ""; preview := "blob:preview";
     loading := false; previousHash := "3a07bd50" |}.

(** The live store of [processed] while the submission of another file,
    chosen in between, is in flight. *)
Definition in_flight : State :=
  {| file := Some photo; hexColor := Some ""; preview := "blob:preview";
     loading := true; previousHash := "3a07bd50" |}.

(** The live store of [chosen] once a first submission is in flight. *)
Definition busy : State :=
  {| file := Some photo; hexColor := Some ""; preview := "blob:preview";
     loading := true; previousHash := "" |}.

(** A result on display. *)
Definition shown : State :=
  {| file := Some photo; hexColor := Some "#112233";
     preview := "blob:preview";
     loading := false; previousHash := "3a07bd50" |}.

(** An endpoint that answers HTTP 413. *)
Definition env_413 : Env :=
  {| env_NEXT_PUBLIC_API_URL := env_NEXT_PUBLIC_API_URL env;
     env_arrayBuffer := env_arrayBuffer env;
     env_digest := env_digest env;
     env_post := fun _ _ => Throw (AxiosHttpError 413);
     env_createObjectURL := env_createObjectURL env;
     env_writeText := env_writeText env |}.

Definition huge_gif : File :=
  {| name := "clip.gif"; size := 3 * 1024 * 1024 + 1; type := "image/gif" |}.

Definition world (s : State) : World :=
  {| store := s; next_toast := 0; next_url := 1; log := [] |}.

End Sample.

(** ** Further reading devices *)

(** The alphabet of [Number.prototype.toString(16)]. *)
Definition is_hex_char (c : ascii) : bool :=
  existsb (Ascii.eqb c) (list_ascii_of_string "0123456789abcdef").

(** The value of a hexadecimal digit, the inverse of [hex_digit]. *)
Definition hex_value (c : ascii) : option N :=
  let n := N_of_ascii c in
  if ((48 <=? n) && (n <=? 57))%N then Some (n - 48)%N
  else if ((97 <=? n) && (n <=? 102))%N then Some (n - 87)%N
  else None.

(** Reading a fingerprint back into the bytes it was written from. *)
Fixpoint bytes_of_hex (s : string) : option (list byte) :=
  match s with
  | EmptyString => Some []
  | String hi (String lo rest) =>
      match hex_value hi, hex_value lo, bytes_of_hex rest with
      | Some h, Some l, Some bs =>
          match Byte.of_N (16 * h + l) with
          | Some b => Some (b :: bs)
          | None => None
          end
      | _, _, _ => None
      end
  | String _ EmptyString => None
  end.

(** The ways a run of [handleUpload] on the file [f] can go: the store it
    leaves, the number of toasts it creates and what it appends to the log. *)
Inductive upload_run (env : Env) (snap : State) (f : File) (w : World)
  : State -> nat -> list effect -> Prop :=
| run_hash_throws e :
    calculateFileHash env f = Throw e ->
    upload_run env snap f w (idle (store w)) 1
      (catch_effects (next_toast w) e ++ [SetState (setLoading false)])
| run_duplicate :
    calculateFileHash env f = Ok (previousHash snap) ->
    upload_run env snap f w (idle (store w)) 1
      [Toast Loading (next_toast w) duplicate_pending_message;
       SetTimeout (DismissThenSuccess (next_toast w) duplicate_done_message)
                  2000;
       SetState (setLoading false)]
| run_no_url h :
    calculateFileHash env f = Ok h ->
    h <> previousHash snap ->
    truthy (env_NEXT_PUBLIC_API_URL env) = false ->
    upload_run env snap f w (idle (store w)) 2
      (sending (next_toast w) ++
       catch_effects (S (next_toast w)) (Error "API URL is not defined") ++
       [SetState (setLoading false)])
| run_rejected h url e :
    calculateFileHash env f = Ok h ->
    h <> previousHash snap ->
    env_NEXT_PUBLIC_API_URL env = Some url -> url <> "" ->
    env_post env url [("file", f)] = Throw e ->
    upload_run env snap f w (idle (store w)) 2
      (sending (next_toast w) ++
       [HttpPost url [("file", f)]] ++
       catch_effects (S (next_toast w)) e ++
       [SetState (setLoading false)])
| run_no_data h url :
    calculateFileHash env f = Ok h ->
    h <> previousHash snap ->
    env_NEXT_PUBLIC_API_URL env = Some url -> url <> "" ->
    env_post env url [("file", f)] = Ok NoData ->
    upload_run env snap f w (idle (store w)) 3
      (sending (next_toast w) ++
       [HttpPost url [("file", f)];
        Dismiss (next_toast w);
        Toast Success (S (next_toast w)) uploaded_message] ++
       catch_effects (S (S (next_toast w)))
         (TypeError "Cannot read properties of undefined") ++
       [SetState (setLoading false)])
| run_resolved h url hex_color :
    calculateFileHash env f = Ok h ->
    h <> previousHash snap ->
    env_NEXT_PUBLIC_API_URL env = Some url -> url <> "" ->
    env_post env url [("file", f)] = Ok (Data hex_color) ->
    upload_run env snap f w
      {| file := file (store w); hexColor := hex_color;
         preview := preview (store w); loading := false;
         previousHash := h |}
      2
      (sending (next_toast w) ++
       [HttpPost url [("file", f)];
        Dismiss (next_toast w);
        Toast Success (S (next_toast w)) uploaded_message;
        SetState (setHexColor hex_color);
        SetState (setPreviousHash h);
        SetState (setLoading false)]).

(** The ways the [try] block of [handleUpload] throws on the file [f], and
    what it throws: the fingerprint cannot be computed, the endpoint address
    is missing, the request is rejected, or the response data is nullish. *)
Inductive upload_failure (env : Env) (snap : State) (f : File)
  : js_error -> Prop :=
| failure_hash e :
    calculateFileHash env f = Throw e ->
    upload_failure env snap f e
| failure_no_url h :
    calculateFileHash env f = Ok h ->
    h <> previousHash snap ->
    truthy (env_NEXT_PUBLIC_API_URL env) = false ->
    upload_failure env snap f (Error "API URL is not defined")
| failure_rejected h url e :
    calculateFileHash env f = Ok h ->
    h <> previousHash snap ->
    env_NEXT_PUBLIC_API_URL env = Some url -> url <> "" ->
    env_post env url [("file", f)] = Throw e ->
    upload_failure env snap f e
| failure_no_data h url :
    calculateFileHash env f = Ok h ->
    h <> previousHash snap ->
    env_NEXT_PUBLIC_API_URL env = Some url -> url <> "" ->
    env_post env url [("file", f)] = Ok NoData ->
    upload_failure env snap f
      (TypeError "Cannot read properties of undefined").

(** [w] with the Busy Flag of its live store set to [b]. *)
Definition with_busy (b : bool) (w : World) : World :=
  {| store := apply_update (setLoading b) (store w);
     next_toast := next_toast w; next_url := next_url w; log := log w |}.

(** [b.toString(16).padStart(2, "0")] *)
Definition hex_byte (b : byte) : string :=
  padStart 2 "0" (toString16 (Byte.to_N b)).

(** The pending ([toast.loading]) toasts of a trace that nothing in the
    trace dismisses: [toast.dismiss(id)] takes one away, [toast.dismiss()]
    takes all away. *)
Fixpoint undismissed_loading (es : list effect) (pending : list toast_id)
  : list toast_id :=
  match es with
  | [] => pending
  | Toast Loading id _ :: es' => undismissed_loading es' (pending ++ [id])
  | Dismiss id :: es' =>
      undismissed_loading es' (filter (fun i => negb (Nat.eqb i id)) pending)
  | DismissAll :: es' => undismissed_loading es' []
  | _ :: es' => undismissed_loading es' pending
  end.

(** The toasts of a trace that are still on screen at its end, oldest
    first. *)
Fixpoint visible_toasts (es : list effect)
    (shown : list (toast_id * toast_kind * string))
  : list (toast_id * toast_kind * string) :=
  match es with
  | [] => shown
  | Toast k id msg :: es' => visible_toasts es' (shown ++ [(id, k, msg)])
  | Dismiss id :: es' =>
      visible_toasts es'
        (filter (fun t => negb (Nat.eqb (fst (fst t)) id)) shown)
  | DismissAll :: es' => visible_toasts es' []
  | _ :: es' => visible_toasts es' shown
  end.

(** The pending toast a timer callback will dismiss. *)
Definition dismissed_by_timer (e : effect) : list toast_id :=
  match e with
  | SetTimeout (DismissThenSuccess id _) _ => [id]
  | _ => []
  end.

Definition is_clipboard (e : effect) : bool :=
  match e with ClipboardWrite _ => true | _ => false end.

Definition success_messages (es : list effect) : list string :=
  flat_map (fun e => match e with
                     | Toast Success _ msg => [msg]
                     | _ => []
                     end) es.

(** Further deployments for the examples. *)
Module Scenario.

(** An endpoint that answers 200 with an object that has no [hex_color]. *)
Definition env_no_color : Env :=
  {| env_NEXT_PUBLIC_API_URL := env_NEXT_PUBLIC_API_URL Sample.env;
     env_arrayBuffer := env_arrayBuffer Sample.env;
     env_digest := env_digest Sample.env;
     env_post := fun _ _ => Ok (Data None);
     env_createObjectURL := env_createObjectURL Sample.env;
     env_writeText := env_writeText Sample.env |}.

(** An endpoint that answers 200 with the JSON value [null]. *)
Definition env_null : Env :=
  {| env_NEXT_PUBLIC_API_URL := env_NEXT_PUBLIC_API_URL Sample.env;
     env_arrayBuffer := env_arrayBuffer Sample.env;
     env_digest := env_digest Sample.env;
     env_post := fun _ _ => Ok NoData;
     env_createObjectURL := env_createObjectURL Sample.env;
     env_writeText := env_writeText Sample.env |}.

(** A browser without [crypto.subtle] (a page served over plain HTTP). *)
Definition env_no_crypto : Env :=
  {| env_NEXT_PUBLIC_API_URL := env_NEXT_PUBLIC_API_URL Sample.env;
     env_arrayBuffer := env_arrayBuffer Sample.env;
     env_digest := fun _ _ =>
       Throw (TypeError "Cannot read properties of undefined");
     env_post := env_post Sample.env;
     env_createObjectURL := env_createObjectURL Sample.env;
     env_writeText := env_writeText Sample.env |}.

(** A server that is down. *)
Definition env_offline : Env :=
  {| env_NEXT_PUBLIC_API_URL := env_NEXT_PUBLIC_API_URL Sample.env;
     env_arrayBuffer := env_arrayBuffer Sample.env;
     env_digest := env_digest Sample.env;
     env_post := fun _ _ => Throw AxiosNetworkError;
     env_createObjectURL := env_createObjectURL Sample.env;
     env_writeText := env_writeText Sample.env |}.

Definition icon : File :=
  {| name := "icon.png"; size := 512; type := "image/png" |}.

End Scenario.

(** * Properties *)

Ltac unfold_run :=
  unfold handleUpload, upload_try, upload_catch, try_catch_finally,
         handleFileChange, copyToClipboard, run_callback, read_hex_color,
         bind, ret, throw, await, emit, setState, toast, createObjectURL,
         extend.

Tactic Notation "unfold_run" "in" hyp(H) :=
  unfold handleUpload, upload_try, upload_catch, try_catch_finally,
         handleFileChange, copyToClipboard, run_callback, read_hex_color,
         bind, ret, throw, await, emit, setState, toast, createObjectURL,
         extend in H.

Ltac finish_run :=
  simpl; repeat rewrite <- app_assoc; simpl; try reflexivity.

Ltac split_catch :=
  unfold catch_effects, sending;
  repeat match goal with
         | |- context [status_is_413 ?e] => destruct (status_is_413 e)
         end.

Ltac in_cases H :=
  simpl in H;
  repeat (destruct H as [H|H]; try discriminate H); try contradiction.

Example hex_of_bytes_sample :
  hex_of_bytes [x00; x0a; xff; x10] = "000aff10".
Proof. reflexivity. Qed.

Example sample_hash :
  calculateFileHash Sample.env Sample.photo = Ok "3a07bd50".
Proof. reflexivity. Qed.

Lemma skipn_length_app {A} (l x : list A) :
  skipn (List.length l) (l ++ x) = x.
Proof. induction l as [|a l IH]; simpl; auto. Qed.

(** Every byte is written as exactly two hexadecimal digits. *)
Lemma byte_hex_length (b : byte) :
  String.length (padStart 2 "0" (toString16 (Byte.to_N b))) = 2.
Proof. destruct b; reflexivity. Qed.

Lemma string_length_append (s t : string) :
  String.length (s ++ t) = String.length s + String.length t.
Proof. induction s as [|c s IH]; simpl; auto. Qed.

Lemma hex_of_bytes_length (l : list byte) :
  String.length (hex_of_bytes l) = 2 * List.length l.
Proof.
  unfold hex_of_bytes.
  induction l as [|b l IH]; [reflexivity|].
  cbn [map String.concat List.length].
  destruct (map _ l) as [|s ss] eqn:E.
  - destruct l; [|discriminate]. simpl List.length.
    rewrite byte_hex_length. reflexivity.
  - rewrite !string_length_append, byte_hex_length, IH.
    simpl String.length. lia.
Qed.

Lemma trace_extend {A} (m : M A) w r st n u es :
  m w = (r, extend w st n u es) -> trace m w = es.
Proof.
  intros E. unfold trace. rewrite E. simpl. apply skipn_length_app.
Qed.

Lemma store_after_extend {A} (m : M A) w r st n u es :
  m w = (r, extend w st n u es) -> store_after m w = st.
Proof. intros E. unfold store_after. rewrite E. reflexivity. Qed.

(** *** Intake *)

Lemma safeParse_fileSchema (f : File) :
  safeParse fileSchema f =
  (if (size f <=? MAX_SIZE)%N then [] else [size_message]) ++
  (if includes ACCEPTED_TYPES (type f) then [] else [type_message]).
Proof.
  unfold safeParse, fileSchema. cbn [filter check].
  destruct (size f <=? MAX_SIZE)%N, (includes ACCEPTED_TYPES (type f));
    reflexivity.
Qed.

Lemma includes_In (l : list string) (x : string) :
  includes l x = true <-> In x l.
Proof.
  unfold includes. rewrite existsb_exists. split.
  - intros (y & Hy & E). apply String.eqb_eq in E. now subst.
  - intros H. exists x. split; [assumption | apply String.eqb_refl].
Qed.

Lemma handleFileChange_rejects env f rest w first others :
  safeParse fileSchema f = first :: others ->
  first <> "" ->
  handleFileChange env (f :: rest) w =
  (Ok tt, extend w (store w) 1 0 [Toast Failure (next_toast w) first]).
Proof.
  intros E Hne. unfold_run. rewrite E.
  destruct first as [|c first]; [congruence|]. reflexivity.
Qed.

Lemma handleFileChange_accepts env f rest w :
  safeParse fileSchema f = [] ->
  handleFileChange env (f :: rest) w =
  (Ok tt,
   extend w
     {| file := Some f; hexColor := Some "";
        preview := env_createObjectURL env (next_url w) f;
        loading := loading (store w);
        previousHash := previousHash (store w) |}
     0 1
     [SetState (setFile (Some f));
      CreateObjectURL f (env_createObjectURL env (next_url w) f);
      SetState (setPreview (env_createObjectURL env (next_url w) f));
      SetState (setHexColor (Some ""))]).
Proof.
  intros E. unfold_run. rewrite E. finish_run.
Qed.

(** *** Submission: one equation per path of [handleUpload] *)

Lemma upload_catch_run error w :
  upload_catch error w =
  (Ok tt, extend w (store w) 1 0 (catch_effects (next_toast w) error)).
Proof.
  unfold catch_effects. unfold_run.
  destruct (status_is_413 error); finish_run.
Qed.

Lemma handleUpload_no_file env snap w :
  file snap = None ->
  handleUpload env snap w =
  (Ok tt, extend w (store w) 1 0 [Toast Failure (next_toast w) no_file_message]).
Proof. intros E. unfold_run. rewrite E. reflexivity. Qed.

Lemma handleUpload_hash_throws env snap f e w :
  file snap = Some f ->
  calculateFileHash env f = Throw e ->
  handleUpload env snap w =
  (Ok tt, extend w (idle (store w)) 1 0
            (catch_effects (next_toast w) e ++ [SetState (setLoading false)])).
Proof.
  intros Ef Eh. unfold handleUpload, try_catch_finally. rewrite Ef.
  unfold upload_try at 1, bind at 1, await at 1. rewrite Eh.
  rewrite upload_catch_run. unfold_run. finish_run.
Qed.

Lemma handleUpload_duplicate env snap f w :
  file snap = Some f ->
  calculateFileHash env f = Ok (previousHash snap) ->
  handleUpload env snap w =
  (Ok tt, extend w (idle (store w)) 1 0
            [Toast Loading (next_toast w) duplicate_pending_message;
             SetTimeout (DismissThenSuccess (next_toast w)
                                            duplicate_done_message) 2000;
             SetState (setLoading false)]).
Proof.
  intros Ef Eh. unfold_run. rewrite Ef, Eh, String.eqb_refl. finish_run.
Qed.

Lemma handleUpload_no_url env snap f h w :
  file snap = Some f ->
  calculateFileHash env f = Ok h ->
  h <> previousHash snap ->
  truthy (env_NEXT_PUBLIC_API_URL env) = false ->
  handleUpload env snap w =
  (Ok tt, extend w (idle (store w)) 2 0
            (sending (next_toast w) ++
             catch_effects (S (next_toast w)) (Error "API URL is not defined") ++
             [SetState (setLoading false)])).
Proof.
  intros Ef Eh Hne Eu. apply String.eqb_neq in Hne.
  unfold handleUpload, try_catch_finally. rewrite Ef.
  unfold upload_try, bind at 1, await at 1. rewrite Eh, Hne.
  destruct (env_NEXT_PUBLIC_API_URL env) as [[|c u]|]; try discriminate.
  all: unfold_run; finish_run.
Qed.

Lemma handleUpload_rejected env snap f h url e w :
  file snap = Some f ->
  calculateFileHash env f = Ok h ->
  h <> previousHash snap ->
  env_NEXT_PUBLIC_API_URL env = Some url -> url <> "" ->
  env_post env url [("file", f)] = Throw e ->
  handleUpload env snap w =
  (Ok tt, extend w (idle (store w)) 2 0
            (sending (next_toast w) ++
             [HttpPost url [("file", f)]] ++
             catch_effects (S (next_toast w)) e ++
             [SetState (setLoading false)])).
Proof.
  intros Ef Eh Hne Eu Hu Ep. apply String.eqb_neq in Hne.
  destruct url as [|c u]; [congruence|].
  unfold handleUpload, try_catch_finally. rewrite Ef.
  unfold upload_try, bind at 1, await at 1. rewrite Eh, Hne, Eu.
  unfold bind, await, setState, toast, emit. rewrite Ep.
  rewrite upload_catch_run. unfold_run. finish_run.
Qed.

Lemma handleUpload_no_data env snap f h url w :
  file snap = Some f ->
  calculateFileHash env f = Ok h ->
  h <> previousHash snap ->
  env_NEXT_PUBLIC_API_URL env = Some url -> url <> "" ->
  env_post env url [("file", f)] = Ok NoData ->
  handleUpload env snap w =
  (Ok tt, extend w (idle (store w)) 3 0
            (sending (next_toast w) ++
             [HttpPost url [("file", f)];
              Dismiss (next_toast w);
              Toast Success (S (next_toast w)) uploaded_message] ++
             catch_effects (S (S (next_toast w)))
               (TypeError "Cannot read properties of undefined") ++
             [SetState (setLoading false)])).
Proof.
  intros Ef Eh Hne Eu Hu Ep. apply String.eqb_neq in Hne.
  destruct url as [|c u]; [congruence|].
  unfold_run. rewrite Ef, Eh, Hne, Eu. simpl. rewrite Ep. finish_run.
Qed.

Lemma handleUpload_resolved env snap f h url hex_color w :
  file snap = Some f ->
  calculateFileHash env f = Ok h ->
  h <> previousHash snap ->
  env_NEXT_PUBLIC_API_URL env = Some url -> url <> "" ->
  env_post env url [("file", f)] = Ok (Data hex_color) ->
  handleUpload env snap w =
  (Ok tt, extend w
            {| file := file (store w); hexColor := hex_color;
               preview := preview (store w); loading := false;
               previousHash := h |}
            2 0
            (sending (next_toast w) ++
             [HttpPost url [("file", f)];
              Dismiss (next_toast w);
              Toast Success (S (next_toast w)) uploaded_message;
              SetState (setHexColor hex_color);
              SetState (setPreviousHash h);
              SetState (setLoading false)])).
Proof.
  intros Ef Eh Hne Eu Hu Ep. apply String.eqb_neq in Hne.
  destruct url as [|c u]; [congruence|].
  unfold_run. rewrite Ef, Eh, Hne, Eu. simpl. rewrite Ep. finish_run.
Qed.

(** *** Facts shared by the submission theorems *)

Lemma idle_when_idle (s : State) : loading s = false -> idle s = s.
Proof. destruct s; simpl; intros ->; reflexivity. Qed.

Lemma failure_messages_app (es es' : list effect) :
  failure_messages (es ++ es') = failure_messages es ++ failure_messages es'.
Proof. apply flat_map_app. Qed.

Lemma failure_messages_catch (id : toast_id) (e : js_error) :
  failure_messages (catch_effects id e) =
  [if status_is_413 e then too_large_message else generic_failure_message].
Proof. unfold catch_effects. destruct (status_is_413 e); reflexivity. Qed.

(** A [try] block that throws ends in the [catch] block and then in the
    cleanup; before the [catch] block no failure toast was shown and the
    only setter called, if any, is [setLoading(true)]. *)
Lemma handleUpload_failed env snap f e w :
  file snap = Some f ->
  fst (upload_try env snap f w) = Throw e ->
  exists n es,
    handleUpload env snap w =
    (Ok tt, extend w (idle (store w)) (S n) 0
              (es ++ catch_effects (n + next_toast w) e ++
               [SetState (setLoading false)])) /\
    failure_messages es = [].
Proof.
  intros Ef Ht.
  destruct (calculateFileHash env f) as [h|e0] eqn:Eh.
  2:{ exists 0, []. split; [|reflexivity].
      unfold upload_try, bind, await in Ht. rewrite Eh in Ht.
      simpl in Ht. injection Ht as <-.
      apply (handleUpload_hash_throws env snap f _ w Ef Eh). }
  destruct (String.eqb_spec h (previousHash snap)) as [->|Hne].
  { unfold_run in Ht. rewrite Eh, String.eqb_refl in Ht. discriminate. }
  pose proof Hne as Hneb. apply String.eqb_neq in Hneb.
  destruct (truthy (env_NEXT_PUBLIC_API_URL env)) eqn:Eu.
  2:{ exists 1, (sending (next_toast w)). split; [|reflexivity].
      rewrite (handleUpload_no_url env snap f h w Ef Eh Hne Eu).
      unfold_run in Ht. rewrite Eh, Hneb in Ht.
      destruct (env_NEXT_PUBLIC_API_URL env) as [[|c u]|]; try discriminate;
        simpl in Ht; injection Ht as <-; reflexivity. }
  destruct (env_NEXT_PUBLIC_API_URL env) as [[|c u]|] eqn:Eurl;
    try discriminate.
  assert (Hu : String c u <> "") by discriminate.
  destruct (env_post env (String c u) [("file", f)]) as [[|hex]|e1] eqn:Ep.
  - exists 2, (sending (next_toast w) ++
               [HttpPost (String c u) [("file", f)]; Dismiss (next_toast w);
                Toast Success (S (next_toast w)) uploaded_message]).
    split; [|reflexivity].
    rewrite (handleUpload_no_data env snap f h _ w Ef Eh Hne Eurl Hu Ep).
    unfold_run in Ht. rewrite Eh, Hneb, Eurl in Ht. simpl in Ht.
    rewrite Ep in Ht. simpl in Ht. injection Ht as <-.
    unfold extend. repeat rewrite <- app_assoc. reflexivity.
  - unfold_run in Ht. rewrite Eh, Hneb, Eurl in Ht. simpl in Ht.
    rewrite Ep in Ht. discriminate.
  - exists 1, (sending (next_toast w) ++ [HttpPost (String c u) [("file", f)]]).
    split; [|reflexivity].
    rewrite (handleUpload_rejected env snap f h _ e1 w Ef Eh Hne Eurl Hu Ep).
    unfold_run in Ht. rewrite Eh, Hneb, Eurl in Ht. simpl in Ht.
    rewrite Ep in Ht. simpl in Ht. injection Ht as <-.
    unfold extend. repeat rewrite <- app_assoc. reflexivity.
Qed.

(** Whatever happens once a file is there, the handler completes and its
    last act is [setLoading(false)]. *)
Lemma handleUpload_cleanup env snap f w :
  file snap = Some f ->
  exists st n es,
    handleUpload env snap w =
    (Ok tt, extend w st n 0 (es ++ [SetState (setLoading false)])) /\
    loading st = false.
Proof.
  intros Ef.
  destruct (fst (upload_try env snap f w)) as [[]|e] eqn:Et.
  2:{ destruct (handleUpload_failed env snap f e w Ef Et) as (n & es & E & _).
      exists (idle (store w)), (S n), (es ++ catch_effects (n + next_toast w) e).
      split; [|reflexivity]. rewrite E, <- app_assoc. reflexivity. }
  destruct (calculateFileHash env f) as [h|e0] eqn:Eh.
  2:{ unfold upload_try, bind, await in Et. rewrite Eh in Et. discriminate. }
  destruct (String.eqb_spec h (previousHash snap)) as [->|Hne].
  { eexists _, _, [_; _]. split; [|shelve].
    rewrite (handleUpload_duplicate env snap f w Ef Eh). reflexivity.
    Unshelve. reflexivity. }
  pose proof Hne as Hneb. apply String.eqb_neq in Hneb.
  unfold_run in Et. rewrite Eh, Hneb in Et.
  destruct (env_NEXT_PUBLIC_API_URL env) as [[|c u]|] eqn:Eurl;
    try discriminate.
  simpl in Et.
  destruct (env_post env (String c u) [("file", f)]) as [[|hex]|e1] eqn:Ep;
    try discriminate.
  assert (Hu : String c u <> "") by discriminate.
  eexists _, _, (sending (next_toast w) ++ [_; _; _; _; _]). split.
  - rewrite (handleUpload_resolved env snap f h _ hex w Ef Eh Hne Eurl Hu Ep).
    reflexivity.
  - reflexivity.
Qed.

(** Every run on a file is one of the six of [upload_run]. *)
Lemma handleUpload_run env snap f w :
  file snap = Some f ->
  exists st n es,
    upload_run env snap f w st n es /\
    handleUpload env snap w = (Ok tt, extend w st n 0 es).
Proof.
  intros Ef.
  destruct (calculateFileHash env f) as [h|e] eqn:Eh.
  2:{ eexists _, _, _. split; [apply (run_hash_throws _ _ _ _ e Eh)|].
      apply (handleUpload_hash_throws env snap f e w Ef Eh). }
  destruct (String.eqb_spec h (previousHash snap)) as [->|Hne].
  { eexists _, _, _. split; [apply (run_duplicate _ _ _ _ Eh)|].
    apply (handleUpload_duplicate env snap f w Ef Eh). }
  destruct (truthy (env_NEXT_PUBLIC_API_URL env)) eqn:Eu.
  2:{ eexists _, _, _. split; [apply (run_no_url _ _ _ _ h Eh Hne Eu)|].
      apply (handleUpload_no_url env snap f h w Ef Eh Hne Eu). }
  destruct (env_NEXT_PUBLIC_API_URL env) as [[|c u]|] eqn:Eurl;
    try discriminate.
  assert (Hu : String c u <> "") by discriminate.
  destruct (env_post env (String c u) [("file", f)]) as [[|hex]|e] eqn:Ep.
  - eexists _, _, _.
    split; [apply (run_no_data _ _ _ _ h _ Eh Hne Eurl Hu Ep)|].
    apply (handleUpload_no_data env snap f h _ w Ef Eh Hne Eurl Hu Ep).
  - eexists _, _, _.
    split; [apply (run_resolved _ _ _ _ h _ hex Eh Hne Eurl Hu Ep)|].
    apply (handleUpload_resolved env snap f h _ hex w Ef Eh Hne Eurl Hu Ep).
  - eexists _, _, _.
    split; [apply (run_rejected _ _ _ _ h _ e Eh Hne Eurl Hu Ep)|].
    apply (handleUpload_rejected env snap f h _ e w Ef Eh Hne Eurl Hu Ep).
Qed.

(** What a run appends does not depend on the live store, only on the toast
    identifiers still free. *)
Lemma handleUpload_trace_any_store env snap w w' :
  next_toast w = next_toast w' ->
  trace (handleUpload env snap) w = trace (handleUpload env snap) w'.
Proof.
  intros Hn.
  destruct (file snap) as [f|] eqn:Ef.
  2:{ rewrite (trace_extend _ _ _ _ _ _ _ (handleUpload_no_file env snap w Ef)),
              (trace_extend _ _ _ _ _ _ _ (handleUpload_no_file env snap w' Ef)).
      now rewrite Hn. }
  destruct (handleUpload_run env snap f w Ef) as (st & n & es & R & E).
  rewrite (trace_extend _ _ _ _ _ _ _ E).
  destruct R as [e H|H|h H Hne Hu|h url e H Hne Hu Hnu Hp
                |h url H Hne Hu Hnu Hp|h url c H Hne Hu Hnu Hp].
  - rewrite (trace_extend _ _ _ _ _ _ _
               (handleUpload_hash_throws env snap f e w' Ef H)).
    now rewrite Hn.
  - rewrite (trace_extend _ _ _ _ _ _ _
               (handleUpload_duplicate env snap f w' Ef H)).
    now rewrite Hn.
  - rewrite (trace_extend _ _ _ _ _ _ _
               (handleUpload_no_url env snap f h w' Ef H Hne Hu)).
    now rewrite Hn.
  - rewrite (trace_extend _ _ _ _ _ _ _
               (handleUpload_rejected env snap f h url e w' Ef H Hne Hu Hnu Hp)).
    now rewrite Hn.
  - rewrite (trace_extend _ _ _ _ _ _ _
               (handleUpload_no_data env snap f h url w' Ef H Hne Hu Hnu Hp)).
    now rewrite Hn.
  - rewrite (trace_extend _ _ _ _ _ _ _
               (handleUpload_resolved env snap f h url c w' Ef H Hne Hu Hnu Hp)).
    now rewrite Hn.
Qed.

(** The [try] block throws exactly in the cases of [upload_failure]. *)
Lemma upload_try_throws env snap f e w :
  fst (upload_try env snap f w) = Throw e <-> upload_failure env snap f e.
Proof.
  split.
  - intros Ht.
    destruct (calculateFileHash env f) as [h|e0] eqn:Eh.
    2:{ unfold upload_try, bind, await in Ht. rewrite Eh in Ht.
        simpl in Ht. injection Ht as <-. now apply failure_hash. }
    destruct (String.eqb_spec h (previousHash snap)) as [->|Hne].
    { unfold_run in Ht. rewrite Eh, String.eqb_refl in Ht. discriminate. }
    pose proof Hne as Hneb. apply String.eqb_neq in Hneb.
    unfold_run in Ht. rewrite Eh, Hneb in Ht.
    destruct (env_NEXT_PUBLIC_API_URL env) as [[|c u]|] eqn:Eurl.
    1,3: simpl in Ht; injection Ht as <-;
      apply (failure_no_url env snap f h Eh Hne); now rewrite Eurl.
    assert (Hu : String c u <> "") by discriminate.
    simpl in Ht.
    destruct (env_post env (String c u) [("file", f)]) as [[|hex]|e1] eqn:Ep;
      simpl in Ht; try discriminate; injection Ht as <-.
    + apply (failure_no_data env snap f h _ Eh Hne Eurl Hu Ep).
    + apply (failure_rejected env snap f h _ _ Eh Hne Eurl Hu Ep).
  - intros [e0 Eh|h Eh Hne Eu|h url e0 Eh Hne Eu Hu Ep|h url Eh Hne Eu Hu Ep];
      try (apply String.eqb_neq in Hne); unfold_run.
    + now rewrite Eh.
    + rewrite Eh, Hne.
      destruct (env_NEXT_PUBLIC_API_URL env) as [[|c u]|];
        try discriminate; reflexivity.
    + destruct url as [|c u]; [congruence|].
      rewrite Eh, Hne, Eu. simpl. now rewrite Ep.
    + destruct url as [|c u]; [congruence|].
      rewrite Eh, Hne, Eu. simpl. now rewrite Ep.
Qed.

(** * The claims *)

(** C1. When the fingerprint of the Selected File equals the Last-Submitted
    Fingerprint, [handleUpload] sends no request and shows the "already
    processed" sequence: a pending toast at once, and a timer of 2000 ms
    whose callback dismisses that toast and shows the success toast. *)
Theorem C1_duplicate_short_circuit env snap f w :
  file snap = Some f ->
  calculateFileHash env f = Ok (previousHash snap) ->
  trace (handleUpload env snap) w =
    [Toast Loading (next_toast w) duplicate_pending_message;
     SetTimeout (DismissThenSuccess (next_toast w) duplicate_done_message)
                2000;
     SetState (setLoading false)] /\
  existsb is_http (trace (handleUpload env snap) w) = false /\
  (forall w',
     trace (run_callback
              (DismissThenSuccess (next_toast w) duplicate_done_message)) w' =
     [Dismiss (next_toast w);
      Toast Success (next_toast w') duplicate_done_message]).
Proof.
  intros Ef Eh.
  rewrite (trace_extend _ _ _ _ _ _ _ (handleUpload_duplicate env snap f w Ef Eh)).
  repeat split.
  intros w'. apply (trace_extend _ _ (Ok tt) (store w') 1 0).
  unfold_run. finish_run.
Qed.

Lemma C1_witness :
  file Sample.processed = Some Sample.photo /\
  calculateFileHash Sample.env Sample.photo =
    Ok (previousHash Sample.processed) /\
  existsb is_http
    (trace (handleUpload Sample.env Sample.processed)
           (Sample.world Sample.processed)) = false.
Proof.
  split; [reflexivity | split; [reflexivity|]].
  apply (C1_duplicate_short_circuit Sample.env Sample.processed Sample.photo
           (Sample.world Sample.processed)); reflexivity.
Defined.

(** C2, as the code has it.  With no Selected File the handler shows the
    "upload first" toast and does nothing else: the store is untouched and
    no request is sent.  The handler performs no busy check: for every
    render, with or without a file, its run is the same whatever the Busy
    Flag of that render is, and what it appends to the log is the same
    whatever the Busy Flag of the live store is.  The flag only renders the
    submit button disabled, so a click on a busy page reaches no handler and
    shows nothing. *)
Theorem C2_no_file_rejected env snap w :
  (file snap = None ->
   trace (handleUpload env snap) w =
     [Toast Failure (next_toast w) no_file_message] /\
   store_after (handleUpload env snap) w = store w /\
   existsb is_http (trace (handleUpload env snap) w) = false) /\
  (forall b,
     handleUpload env (apply_update (setLoading b) snap) w =
     handleUpload env snap w) /\
  (forall b,
     trace (handleUpload env snap) (with_busy b w) =
     trace (handleUpload env snap) w) /\
  (loading (store w) = true ->
   click_submit env w = (Ok tt, w) /\ trace (click_submit env) w = []).
Proof.
  split; [|split; [|split]].
  - intros Ef. pose proof (handleUpload_no_file env snap w Ef) as E.
    rewrite (trace_extend _ _ _ _ _ _ _ E),
            (store_after_extend _ _ _ _ _ _ _ E).
    repeat split.
  - intros b. reflexivity.
  - intros b. apply handleUpload_trace_any_store. reflexivity.
  - intros Hb.
    assert (E : click_submit env w = (Ok tt, w))
      by (unfold click_submit, render; cbn [submit_disabled];
          now rewrite Hb).
    split; [exact E|]. unfold trace. rewrite E. apply skipn_all.
Qed.

Lemma C2_witness :
  file initialState = None /\
  failure_messages (trace (handleUpload Sample.env initialState) mount) =
    [no_file_message] /\
  handleUpload Sample.env Sample.busy (Sample.world Sample.busy) =
    handleUpload Sample.env Sample.chosen (Sample.world Sample.busy) /\
  loading (store (Sample.world Sample.busy)) = true /\
  click_submit Sample.env (Sample.world Sample.busy) =
    (Ok tt, Sample.world Sample.busy).
Proof.
  destruct (C2_no_file_rejected Sample.env initialState mount)
    as (Hn & _ & _ & _).
  destruct (Hn eq_refl) as (Ht & _ & _).
  destruct (C2_no_file_rejected Sample.env Sample.chosen
              (Sample.world Sample.busy)) as (_ & Hb & _ & Hc).
  destruct (Hc eq_refl) as (Hc' & _).
  split; [reflexivity|]. split; [rewrite Ht; reflexivity|].
  split; [exact (Hb true)|]. split; [reflexivity | exact Hc'].
Defined.

(** C2 as stated fails.  A handler created while the page was idle and
    resumed while the Busy Flag is true shows no rejection: it sends the
    request and changes the store.  A click on the busy page shows no
    message at all. *)
Lemma C2_counterexample :
  loading (store (Sample.world Sample.busy)) = true /\
  trace (handleUpload Sample.env Sample.chosen) (Sample.world Sample.busy) =
    [SetState (setLoading true);
     Toast Loading 0 uploading_message;
     HttpPost "https://api.example.test/color" [("file", Sample.photo)];
     Dismiss 0;
     Toast Success 1 uploaded_message;
     SetState (setHexColor (Some "#112233"));
     SetState (setPreviousHash "3a07bd50");
     SetState (setLoading false)] /\
  store_after (handleUpload Sample.env Sample.chosen)
              (Sample.world Sample.busy) = Sample.shown /\
  Sample.shown <> Sample.busy /\
  trace (handleUpload Sample.env Sample.busy) (Sample.world Sample.busy) =
  trace (handleUpload Sample.env Sample.chosen) (Sample.world Sample.busy) /\
  trace (click_submit Sample.env) (Sample.world Sample.busy) = [].
Proof.
  repeat split; try reflexivity. discriminate.
Qed.

(** C3. When the request resolves with a payload that has a [hex_color]
    member, the handler dismisses the working toast, shows the success
    toast, sets Result Color to that member and Last-Submitted Fingerprint
    to the fingerprint it computed. *)
Theorem C3_success env snap f h url c w :
  file snap = Some f ->
  calculateFileHash env f = Ok h ->
  h <> previousHash snap ->
  env_NEXT_PUBLIC_API_URL env = Some url -> url <> "" ->
  env_post env url [("file", f)] = Ok (Data (Some c)) ->
  trace (handleUpload env snap) w =
    [SetState (setLoading true);
     Toast Loading (next_toast w) uploading_message;
     HttpPost url [("file", f)];
     Dismiss (next_toast w);
     Toast Success (S (next_toast w)) uploaded_message;
     SetState (setHexColor (Some c));
     SetState (setPreviousHash h);
     SetState (setLoading false)] /\
  hexColor (store_after (handleUpload env snap) w) = Some c /\
  previousHash (store_after (handleUpload env snap) w) = h /\
  failure_messages (trace (handleUpload env snap) w) = [].
Proof.
  intros Ef Eh Hne Eu Hu Ep.
  pose proof (handleUpload_resolved env snap f h url (Some c) w
                Ef Eh Hne Eu Hu Ep) as E.
  rewrite (trace_extend _ _ _ _ _ _ _ E), (store_after_extend _ _ _ _ _ _ _ E).
  repeat split.
Qed.

Lemma C3_witness :
  file Sample.chosen = Some Sample.photo /\
  calculateFileHash Sample.env Sample.photo = Ok "3a07bd50" /\
  "3a07bd50" <> previousHash Sample.chosen /\
  hexColor (store_after (handleUpload Sample.env Sample.chosen)
                        (Sample.world Sample.chosen)) = Some "#112233" /\
  previousHash (store_after (handleUpload Sample.env Sample.chosen)
                            (Sample.world Sample.chosen)) = "3a07bd50".
Proof.
  assert (Hne : "3a07bd50" <> previousHash Sample.chosen) by discriminate.
  assert (Hu : "https://api.example.test/color" <> "") by discriminate.
  destruct (C3_success Sample.env Sample.chosen Sample.photo "3a07bd50"
              "https://api.example.test/color" "#112233"
              (Sample.world Sample.chosen)
              eq_refl eq_refl Hne eq_refl Hu eq_refl) as (_ & Hc & Hp & _).
  exact (conj eq_refl (conj eq_refl (conj Hne (conj Hc Hp)))).
Defined.

(** C4, as the code has it.  A submission fails when its [try] block
    throws, and that happens in exactly four cases: the fingerprint cannot
    be computed, the endpoint address is missing, the request is rejected
    (an HTTP error status or a network failure), or the response data is
    nullish.  Then exactly one failure toast is shown, the oversized-file
    message if the error carries response status 413 and the generic message
    otherwise (the two differ, so "if and only if"), and Result Color and
    Last-Submitted Fingerprint are what they were.  A request that resolves
    with data is never a failure, whatever its [hex_color] member, a missing
    one included: no failure toast is shown, and Result Color and
    Last-Submitted Fingerprint are set from it. *)
Theorem C4_failure_notification env snap f w :
  file snap = Some f ->
  (forall e,
     upload_failure env snap f e ->
     fst (upload_try env snap f w) = Throw e /\
     failure_messages (trace (handleUpload env snap) w) =
       [if status_is_413 e then too_large_message
        else generic_failure_message] /\
     (status_is_413 e = true <-> response_status e = Some 413%Z) /\
     hexColor (store_after (handleUpload env snap) w) = hexColor (store w) /\
     previousHash (store_after (handleUpload env snap) w) =
       previousHash (store w)) /\
  (forall e,
     fst (upload_try env snap f w) = Throw e -> upload_failure env snap f e) /\
  too_large_message <> generic_failure_message /\
  (forall h url c,
     calculateFileHash env f = Ok h ->
     h <> previousHash snap ->
     env_NEXT_PUBLIC_API_URL env = Some url -> url <> "" ->
     env_post env url [("file", f)] = Ok (Data c) ->
     fst (upload_try env snap f w) = Ok tt /\
     failure_messages (trace (handleUpload env snap) w) = [] /\
     hexColor (store_after (handleUpload env snap) w) = c /\
     previousHash (store_after (handleUpload env snap) w) = h).
Proof.
  intros Ef. split; [|split; [|split]].
  - intros e Hf. pose proof Hf as Et. apply upload_try_throws with (w := w) in Et.
    destruct (handleUpload_failed env snap f e w Ef Et) as (n & es & E & Hes).
    rewrite (trace_extend _ _ _ _ _ _ _ E),
            (store_after_extend _ _ _ _ _ _ _ E).
    rewrite !failure_messages_app, Hes, failure_messages_catch.
    split; [exact Et|]. split; [reflexivity|]. split; [|split; reflexivity].
    unfold status_is_413. destruct (response_status e) as [st|].
    + split; [intros H; apply Z.eqb_eq in H; now subst
             | intros H; injection H as ->; reflexivity].
    + split; discriminate.
  - intros e Et. now apply upload_try_throws in Et.
  - discriminate.
  - intros h url c Eh Hne Eu Hu Ep.
    pose proof (handleUpload_resolved env snap f h url c w Ef Eh Hne Eu Hu Ep)
      as E.
    rewrite (trace_extend _ _ _ _ _ _ _ E),
            (store_after_extend _ _ _ _ _ _ _ E).
    split; [|repeat split].
    destruct (fst (upload_try env snap f w)) as [[]|e] eqn:Et; [reflexivity|].
    exfalso. apply upload_try_throws in Et.
    destruct Et as [e0 Eh'|h' Eh' Hne' Eu'|h' url' e0 Eh' Hne' Eu' Hu' Ep'
                   |h' url' Eh' Hne' Eu' Hu' Ep'];
      try congruence.
    rewrite Eu in Eu'. destruct url; [congruence | discriminate].
Qed.

Lemma C4_witness :
  file Sample.chosen = Some Sample.photo /\
  upload_failure Sample.env_413 Sample.chosen Sample.photo
    (AxiosHttpError 413) /\
  fst (upload_try Sample.env_413 Sample.chosen Sample.photo
         (Sample.world Sample.chosen)) = Throw (AxiosHttpError 413) /\
  failure_messages
    (trace (handleUpload Sample.env_413 Sample.chosen)
           (Sample.world Sample.chosen)) = [too_large_message] /\
  hexColor (store_after (handleUpload Sample.env_413 Sample.chosen)
                        (Sample.world Sample.chosen)) = Some "".
Proof.
  assert (Hne : "3a07bd50" <> previousHash Sample.chosen) by discriminate.
  assert (Hu : "https://api.example.test/color" <> "") by discriminate.
  assert (Hf : upload_failure Sample.env_413 Sample.chosen Sample.photo
                 (AxiosHttpError 413))
    by exact (failure_rejected Sample.env_413 Sample.chosen Sample.photo
                "3a07bd50" "https://api.example.test/color"
                (AxiosHttpError 413) eq_refl Hne eq_refl Hu eq_refl).
  destruct (C4_failure_notification Sample.env_413 Sample.chosen Sample.photo
              (Sample.world Sample.chosen) eq_refl) as (Ha & _).
  destruct (Ha (AxiosHttpError 413) Hf) as (Ht & Hm & _ & Hc & _).
  exact (conj eq_refl (conj Hf (conj Ht (conj Hm Hc)))).
Defined.

(** C4 as stated fails.  An endpoint that answers 200 with data that has no
    [hex_color] gave a malformed response, yet the run shows no failure
    toast at all: it shows the success toast, and Result Color and
    Last-Submitted Fingerprint are overwritten. *)
Lemma C4_counterexample :
  env_post Scenario.env_no_color "https://api.example.test/color"
    [("file", Sample.photo)] = Ok (Data None) /\
  trace (handleUpload Scenario.env_no_color Sample.chosen)
        (Sample.world Sample.chosen) =
    [SetState (setLoading true);
     Toast Loading 0 uploading_message;
     HttpPost "https://api.example.test/color" [("file", Sample.photo)];
     Dismiss 0;
     Toast Success 1 uploaded_message;
     SetState (setHexColor None);
     SetState (setPreviousHash "3a07bd50");
     SetState (setLoading false)] /\
  failure_messages
    (trace (handleUpload Scenario.env_no_color Sample.chosen)
           (Sample.world Sample.chosen)) = [] /\
  hexColor (store (Sample.world Sample.chosen)) = Some "" /\
  hexColor (store_after (handleUpload Scenario.env_no_color Sample.chosen)
                        (Sample.world Sample.chosen)) = None /\
  previousHash (store (Sample.world Sample.chosen)) = "" /\
  previousHash (store_after (handleUpload Scenario.env_no_color Sample.chosen)
                            (Sample.world Sample.chosen)) = "3a07bd50".
Proof. repeat split. Qed.

(** C5. Every run of [handleUpload] that called [setLoading(true)] completes
    with [setLoading(false)] as its last act and leaves the Busy Flag false,
    whichever way the [try] block ended. *)
Theorem C5_busy_flag_reset env snap w :
  existsb sets_busy (trace (handleUpload env snap) w) = true ->
  fst (handleUpload env snap w) = Ok tt /\
  loading (store_after (handleUpload env snap) w) = false /\
  exists es,
    trace (handleUpload env snap) w = es ++ [SetState (setLoading false)].
Proof.
  intros Hb.
  destruct (file snap) as [f|] eqn:Ef.
  - destruct (handleUpload_cleanup env snap f w Ef) as (st & n & es & E & Hl).
    rewrite (store_after_extend _ _ _ _ _ _ _ E),
            (trace_extend _ _ _ _ _ _ _ E).
    rewrite E. repeat split; [assumption | now exists es].
  - rewrite (trace_extend _ _ _ _ _ _ _ (handleUpload_no_file env snap w Ef))
      in Hb. discriminate.
Qed.

Lemma C5_witness :
  existsb sets_busy
    (trace (handleUpload Sample.env_413 Sample.chosen)
           (Sample.world Sample.chosen)) = true /\
  loading (store_after (handleUpload Sample.env_413 Sample.chosen)
                       (Sample.world Sample.chosen)) = false.
Proof.
  split; [reflexivity|].
  apply (C5_busy_flag_reset Sample.env_413 Sample.chosen
           (Sample.world Sample.chosen)). reflexivity.
Defined.

(** C6. A first file that breaks a rule is rejected with one toast: the
    size message when it is larger than 3 MiB (3145728 bytes), whatever its
    type, and otherwise the type message; the two differ.  Nothing else
    happens: the store, hence Selected File, Preview Reference and Result
    Color, is what it was. *)
Theorem C6_intake_rejection env f rest w :
  (MAX_SIZE < size f)%N \/ ~ In (type f) ACCEPTED_TYPES ->
  MAX_SIZE = 3145728%N /\
  size_message <> type_message /\
  trace (handleFileChange env (f :: rest)) w =
    [Toast Failure (next_toast w)
       (if (MAX_SIZE <? size f)%N then size_message else type_message)] /\
  store_after (handleFileChange env (f :: rest)) w = store w.
Proof.
  intros H.
  assert (E : exists others,
             safeParse fileSchema f =
             (if (MAX_SIZE <? size f)%N then size_message else type_message)
             :: others).
  { rewrite safeParse_fileSchema, N.ltb_antisym.
    destruct (size f <=? MAX_SIZE)%N eqn:Es; cbn [negb app].
    - destruct (includes ACCEPTED_TYPES (type f)) eqn:Et.
      + exfalso. destruct H as [H|H].
        * apply N.leb_le in Es. lia.
        * apply H, includes_In, Et.
      + now exists [].
    - eexists. reflexivity. }
  destruct E as (others & E).
  assert (Hne : (if (MAX_SIZE <? size f)%N then size_message
                 else type_message) <> "")
    by (destruct (MAX_SIZE <? size f)%N; discriminate).
  pose proof (handleFileChange_rejects env f rest w _ _ E Hne) as R.
  rewrite (trace_extend _ _ _ _ _ _ _ R), (store_after_extend _ _ _ _ _ _ _ R).
  repeat split. discriminate.
Qed.

Lemma C6_witness :
  ((MAX_SIZE < size Sample.huge_gif)%N \/
   ~ In (type Sample.huge_gif) ACCEPTED_TYPES) /\
  trace (handleFileChange Sample.env [Sample.huge_gif])
        (Sample.world Sample.shown) = [Toast Failure 0 size_message] /\
  store_after (handleFileChange Sample.env [Sample.huge_gif])
              (Sample.world Sample.shown) = Sample.shown.
Proof.
  assert (H : (MAX_SIZE < size Sample.huge_gif)%N \/
              ~ In (type Sample.huge_gif) ACCEPTED_TYPES)
    by (left; reflexivity).
  split; [exact H|].
  destruct (C6_intake_rejection Sample.env Sample.huge_gif []
              (Sample.world Sample.shown) H) as (_ & _ & Ht & Hs).
  split; assumption.
Defined.

(** C7. A non-empty list whose first file is at most 3 MiB and of an
    accepted type is taken in through that first file: Selected File becomes
    it, Preview Reference becomes the object URL just created for it, Result
    Color becomes the empty string, the other fields stay, and no request is
    sent. *)
Theorem C7_intake_success env f rest w :
  (size f <= MAX_SIZE)%N ->
  In (type f) ACCEPTED_TYPES ->
  fst (handleFileChange env (f :: rest) w) = Ok tt /\
  store_after (handleFileChange env (f :: rest)) w =
    {| file := Some f; hexColor := Some "";
       preview := env_createObjectURL env (next_url w) f;
       loading := loading (store w);
       previousHash := previousHash (store w) |} /\
  trace (handleFileChange env (f :: rest)) w =
    [SetState (setFile (Some f));
     CreateObjectURL f (env_createObjectURL env (next_url w) f);
     SetState (setPreview (env_createObjectURL env (next_url w) f));
     SetState (setHexColor (Some ""))] /\
  existsb is_http (trace (handleFileChange env (f :: rest)) w) = false.
Proof.
  intros Hs Ht.
  assert (E : safeParse fileSchema f = []).
  { rewrite safeParse_fileSchema.
    apply N.leb_le in Hs. apply includes_In in Ht. now rewrite Hs, Ht. }
  pose proof (handleFileChange_accepts env f rest w E) as R.
  rewrite (trace_extend _ _ _ _ _ _ _ R), (store_after_extend _ _ _ _ _ _ _ R).
  rewrite R. repeat split.
Qed.

Lemma C7_witness :
  (size Sample.photo <= MAX_SIZE)%N /\
  In (type Sample.photo) ACCEPTED_TYPES /\
  store_after (handleFileChange Sample.env [Sample.photo; Sample.huge_gif])
              (Sample.world Sample.shown) =
    {| file := Some Sample.photo; hexColor := Some "";
       preview := "blob:preview"; loading := false;
       previousHash := "3a07bd50" |}.
Proof.
  assert (Hs : (size Sample.photo <= MAX_SIZE)%N) by (vm_compute; discriminate).
  assert (Ht : In (type Sample.photo) ACCEPTED_TYPES) by (left; reflexivity).
  split; [exact Hs | split; [exact Ht|]].
  apply (C7_intake_success Sample.env Sample.photo [Sample.huge_gif]
           (Sample.world Sample.shown) Hs Ht).
Defined.

(** C8, as the code has it.  The endpoint address is read inside the [try]
    block, after the duplicate test, the [setLoading(true)] and the working
    toast.  When it is absent (or empty) a submission that gets that far
    sends no request, logs the error and shows the generic failure toast;
    the store keeps everything but the Busy Flag, which the cleanup sets to
    false. *)
Theorem C8_missing_endpoint env snap f h w :
  truthy (env_NEXT_PUBLIC_API_URL env) = false ->
  file snap = Some f ->
  calculateFileHash env f = Ok h ->
  h <> previousHash snap ->
  trace (handleUpload env snap) w =
    [SetState (setLoading true);
     Toast Loading (next_toast w) uploading_message;
     DismissAll;
     ConsoleError "Error uploading file:" (Error "API URL is not defined");
     Toast Failure (S (next_toast w)) generic_failure_message;
     SetState (setLoading false)] /\
  failure_messages (trace (handleUpload env snap) w) =
    [generic_failure_message] /\
  existsb is_http (trace (handleUpload env snap) w) = false /\
  store_after (handleUpload env snap) w = idle (store w).
Proof.
  intros Eu Ef Eh Hne.
  pose proof (handleUpload_no_url env snap f h w Ef Eh Hne Eu) as E.
  rewrite (trace_extend _ _ _ _ _ _ _ E), (store_after_extend _ _ _ _ _ _ _ E).
  repeat split.
Qed.

Lemma C8_witness :
  truthy (env_NEXT_PUBLIC_API_URL Sample.env_no_url) = false /\
  file Sample.chosen = Some Sample.photo /\
  calculateFileHash Sample.env_no_url Sample.photo = Ok "3a07bd50" /\
  "3a07bd50" <> previousHash Sample.chosen /\
  failure_messages
    (trace (handleUpload Sample.env_no_url Sample.chosen)
           (Sample.world Sample.chosen)) = [generic_failure_message].
Proof.
  assert (Hne : "3a07bd50" <> previousHash Sample.chosen) by discriminate.
  destruct (C8_missing_endpoint Sample.env_no_url Sample.chosen Sample.photo
              "3a07bd50" (Sample.world Sample.chosen)
              eq_refl eq_refl eq_refl Hne) as (_ & Hm & _).
  exact (conj eq_refl (conj eq_refl (conj eq_refl (conj Hne Hm)))).
Defined.

(** C8 as stated fails.  With the address absent the page mounts as ever:
    nothing is logged and the submit button is enabled.  The first
    submission attempt, made with no Selected File, shows the "upload first"
    toast and no generic failure. *)
Lemma C8_counterexample :
  env_NEXT_PUBLIC_API_URL Sample.env_no_url = None /\
  log mount = [] /\
  submit_disabled (render (store mount)) = false /\
  trace (click_submit Sample.env_no_url) mount =
    [Toast Failure 0 no_file_message] /\
  ~ In generic_failure_message
       (failure_messages (trace (click_submit Sample.env_no_url) mount)).
Proof.
  repeat split; try reflexivity.
  intros [H|[]]. discriminate H.
Qed.

(** C9. With a non-empty Result Color, [copyToClipboard] writes exactly that
    string to the clipboard and then shows the confirmation toast if the
    write resolved and the failure toast, a different message, if it was
    rejected; the store is what it was.  A click on the rendered swatch is
    such a call. *)
Theorem C9_copy env snap c w :
  hexColor snap = Some c ->
  c <> "" ->
  trace (copyToClipboard env snap) w =
    [ClipboardWrite c;
     if env_writeText env c
     then Toast Success (next_toast w) copied_message
     else Toast Failure (next_toast w) copy_failed_message] /\
  copied_message <> copy_failed_message /\
  store_after (copyToClipboard env snap) w = store w /\
  (store w = snap -> click_swatch env w = copyToClipboard env snap w).
Proof.
  intros Ec Hne. destruct c as [|a c]; [congruence|].
  assert (E : copyToClipboard env snap w =
              (Ok tt, extend w (store w) 1 0
                 [ClipboardWrite (String a c);
                  if env_writeText env (String a c)
                  then Toast Success (next_toast w) copied_message
                  else Toast Failure (next_toast w) copy_failed_message])).
  { unfold_run. rewrite Ec.
    destruct (env_writeText env (String a c)); finish_run. }
  rewrite (trace_extend _ _ _ _ _ _ _ E), (store_after_extend _ _ _ _ _ _ _ E).
  repeat split; try discriminate.
  intros Hs. unfold click_swatch, render. cbn [swatch]. rewrite Hs, Ec.
  reflexivity.
Qed.

Lemma C9_witness :
  hexColor Sample.shown = Some "#112233" /\
  "#112233" <> "" /\
  trace (copyToClipboard Sample.env Sample.shown) (Sample.world Sample.shown) =
    [ClipboardWrite "#112233"; Toast Success 0 copied_message] /\
  store_after (copyToClipboard Sample.env Sample.shown)
              (Sample.world Sample.shown) = Sample.shown.
Proof.
  assert (Hne : "#112233" <> "") by discriminate.
  destruct (C9_copy Sample.env Sample.shown "#112233"
              (Sample.world Sample.shown) eq_refl Hne) as (Ht & _ & Hs & _).
  exact (conj eq_refl (conj Hne (conj Ht Hs))).
Defined.

(** C10, as the code has it.  On the duplicate path [setLoading(true)] is
    never called, so this run never disables the submit button; the only
    setter called is the [setLoading(false)] of the cleanup.  Selected File,
    Preview Reference, Result Color and Last-Submitted Fingerprint are what
    they were, the Busy Flag ends false, and the whole store is unchanged
    when the flag was false to begin with. *)
Theorem C10_duplicate_frame env snap f w :
  file snap = Some f ->
  calculateFileHash env f = Ok (previousHash snap) ->
  existsb sets_busy (trace (handleUpload env snap) w) = false /\
  store_after (handleUpload env snap) w = idle (store w) /\
  (loading (store w) = false ->
   store_after (handleUpload env snap) w = store w) /\
  file (store_after (handleUpload env snap) w) = file (store w) /\
  preview (store_after (handleUpload env snap) w) = preview (store w) /\
  hexColor (store_after (handleUpload env snap) w) = hexColor (store w) /\
  previousHash (store_after (handleUpload env snap) w) =
    previousHash (store w).
Proof.
  intros Ef Eh. pose proof (handleUpload_duplicate env snap f w Ef Eh) as E.
  rewrite (trace_extend _ _ _ _ _ _ _ E), (store_after_extend _ _ _ _ _ _ _ E).
  repeat split. apply idle_when_idle.
Qed.

Lemma C10_witness :
  file Sample.processed = Some Sample.photo /\
  calculateFileHash Sample.env Sample.photo =
    Ok (previousHash Sample.processed) /\
  store_after (handleUpload Sample.env Sample.processed)
              (Sample.world Sample.processed) = Sample.processed.
Proof.
  destruct (C10_duplicate_frame Sample.env Sample.processed Sample.photo
              (Sample.world Sample.processed) eq_refl eq_refl)
    as (_ & _ & Hs & _).
  exact (conj eq_refl (conj eq_refl (Hs eq_refl))).
Defined.

(** C10 as stated fails.  A duplicate submission that resumes while another
    submission is in flight finds the Busy Flag true and, through the
    cleanup, leaves it false: a session field changed on the duplicate
    path. *)
Lemma C10_counterexample :
  file Sample.processed = Some Sample.photo /\
  calculateFileHash Sample.env Sample.photo =
    Ok (previousHash Sample.processed) /\
  trace (handleUpload Sample.env Sample.processed)
        (Sample.world Sample.in_flight) =
    [Toast Loading 0 duplicate_pending_message;
     SetTimeout (DismissThenSuccess 0 duplicate_done_message) 2000;
     SetState (setLoading false)] /\
  loading (store (Sample.world Sample.in_flight)) = true /\
  loading (store_after (handleUpload Sample.env Sample.processed)
                       (Sample.world Sample.in_flight)) = false /\
  store_after (handleUpload Sample.env Sample.processed)
              (Sample.world Sample.in_flight)
  <> store (Sample.world Sample.in_flight).
Proof.
  repeat split; try reflexivity. discriminate.
Qed.

(** * Further properties of the page *)

(** ** The fingerprint ([calculateFileHash]) *)

Lemma hex_of_bytes_cons (b : byte) (l : list byte) :
  hex_of_bytes (b :: l) = (hex_byte b ++ hex_of_bytes l)%string.
Proof. destruct l; destruct b; reflexivity. Qed.

Lemma bytes_of_hex_two (hi lo : ascii) (rest : string) (h l : N) (b : byte) :
  hex_value hi = Some h ->
  hex_value lo = Some l ->
  Byte.of_N (16 * h + l) = Some b ->
  bytes_of_hex (String hi (String lo rest)) =
  option_map (cons b) (bytes_of_hex rest).
Proof.
  intros Hh Hl Hb. cbn [bytes_of_hex]. rewrite Hh, Hl.
  destruct (bytes_of_hex rest); [rewrite Hb|]; reflexivity.
Qed.

Lemma bytes_of_hex_byte (b : byte) (rest : string) :
  bytes_of_hex (hex_byte b ++ rest)%string = option_map (cons b) (bytes_of_hex rest).
Proof.
  destruct b;
    match goal with
    | |- context [hex_byte ?x] =>
        let v := eval vm_compute in (hex_byte x) in
        change (hex_byte x) with v
    end;
    cbn [append];
    (eapply bytes_of_hex_two; vm_compute; reflexivity).
Qed.

Lemma bytes_of_hex_of_bytes (l : list byte) :
  bytes_of_hex (hex_of_bytes l) = Some l.
Proof.
  induction l as [|b l IH]; [reflexivity|].
  rewrite hex_of_bytes_cons, bytes_of_hex_byte, IH. reflexivity.
Qed.

Lemma hex_byte_alphabet (b : byte) (rest : string) :
  forallb is_hex_char (list_ascii_of_string (hex_byte b ++ rest)%string) =
  forallb is_hex_char (list_ascii_of_string rest).
Proof. destruct b; reflexivity. Qed.

Lemma hex_of_bytes_alphabet (l : list byte) :
  forallb is_hex_char (list_ascii_of_string (hex_of_bytes l)) = true.
Proof.
  induction l as [|b l IH]; [reflexivity|].
  now rewrite hex_of_bytes_cons, hex_byte_alphabet.
Qed.

(** X1. A fingerprint that is returned is the digest of the file's bytes
    under "SHA-256", written with two lowercase hexadecimal digits per byte,
    high digit first: it is twice as long as the digest and reads back into
    it. *)
Theorem fingerprint_shape env f h :
  calculateFileHash env f = Ok h ->
  exists buffer hashBuffer,
    env_arrayBuffer env f = Ok buffer /\
    env_digest env "SHA-256" buffer = Ok hashBuffer /\
    String.length h = 2 * List.length hashBuffer /\
    forallb is_hex_char (list_ascii_of_string h) = true /\
    bytes_of_hex h = Some hashBuffer.
Proof.
  unfold calculateFileHash. intros H.
  destruct (env_arrayBuffer env f) as [buffer|] eqn:Eb; [|discriminate].
  destruct (env_digest env "SHA-256" buffer) as [hashBuffer|] eqn:Ed;
    [|discriminate].
  injection H as <-. exists buffer, hashBuffer.
  split; [reflexivity|]. split; [exact Ed|].
  split; [apply hex_of_bytes_length|].
  split; [apply hex_of_bytes_alphabet | apply bytes_of_hex_of_bytes].
Qed.

Lemma fingerprint_shape_witness :
  calculateFileHash Sample.env Sample.photo = Ok "3a07bd50" /\
  exists buffer hashBuffer,
    env_arrayBuffer Sample.env Sample.photo = Ok buffer /\
    env_digest Sample.env "SHA-256" buffer = Ok hashBuffer /\
    String.length "3a07bd50" = 2 * List.length hashBuffer /\
    forallb is_hex_char (list_ascii_of_string "3a07bd50") = true /\
    bytes_of_hex "3a07bd50" = Some hashBuffer.
Proof.
  split; [reflexivity|].
  exact (fingerprint_shape Sample.env Sample.photo "3a07bd50" eq_refl).
Defined.

(** X2. Two files get the same fingerprint exactly when their digests are
    the same bytes: the hexadecimal writing loses nothing, so the duplicate
    test compares digests. *)
Theorem fingerprint_equal_iff_digest_equal env f f' buffer buffer' d d' :
  env_arrayBuffer env f = Ok buffer ->
  env_digest env "SHA-256" buffer = Ok d ->
  env_arrayBuffer env f' = Ok buffer' ->
  env_digest env "SHA-256" buffer' = Ok d' ->
  (calculateFileHash env f = calculateFileHash env f' <-> d = d').
Proof.
  intros Eb Ed Eb' Ed'. unfold calculateFileHash.
  rewrite Eb, Ed, Eb', Ed'. split.
  - intros H. injection H as H.
    apply (f_equal bytes_of_hex) in H.
    rewrite !bytes_of_hex_of_bytes in H. now injection H.
  - now intros ->.
Qed.

Lemma fingerprint_equal_iff_digest_equal_witness :
  env_arrayBuffer Sample.env Sample.photo = Ok [x89; x50] /\
  env_digest Sample.env "SHA-256" [x89; x50] = Ok Sample.digest_bytes /\
  (calculateFileHash Sample.env Sample.photo =
   calculateFileHash Sample.env Scenario.icon <->
   Sample.digest_bytes = Sample.digest_bytes).
Proof.
  split; [reflexivity | split; [reflexivity|]].
  exact (fingerprint_equal_iff_digest_equal Sample.env Sample.photo
           Scenario.icon [x89; x50] [x89; x50]
           Sample.digest_bytes Sample.digest_bytes
           eq_refl eq_refl eq_refl eq_refl).
Defined.

(** ** Every run of [handleUpload] *)

(** X3. On a page whose Last-Submitted Fingerprint is still empty, a file
    whose digest has at least one byte is never short-circuited: the run
    sets the Busy Flag, shows the working toast, and schedules no "already
    processed" timer. *)
Theorem first_submission_not_short_circuited env snap f buffer b d w :
  file snap = Some f ->
  previousHash snap = "" ->
  env_arrayBuffer env f = Ok buffer ->
  env_digest env "SHA-256" buffer = Ok (b :: d) ->
  (exists es,
     trace (handleUpload env snap) w = sending (next_toast w) ++ es) /\
  flat_map dismissed_by_timer (trace (handleUpload env snap) w) = [].
Proof.
  intros Ef Ep Eb Ed.
  assert (Eh : calculateFileHash env f = Ok (hex_of_bytes (b :: d)))
    by (unfold calculateFileHash; now rewrite Eb, Ed).
  assert (Hne : hex_of_bytes (b :: d) <> "").
  { intros E. apply (f_equal String.length) in E.
    rewrite hex_of_bytes_length in E. simpl in E. lia. }
  destruct (handleUpload_run env snap f w Ef) as (st & n & es & R & E).
  rewrite (trace_extend _ _ _ _ _ _ _ E).
  destruct R as [e H|H|h H|h url e H|h url H|h url c H];
    rewrite Eh in H; try discriminate H;
    try (injection H as H; rewrite Ep in H; congruence).
  all: split; [eexists; reflexivity | split_catch; reflexivity].
Qed.

Lemma first_submission_not_short_circuited_witness :
  file Sample.chosen = Some Sample.photo /\
  previousHash Sample.chosen = "" /\
  flat_map dismissed_by_timer
    (trace (handleUpload Sample.env Sample.chosen)
           (Sample.world Sample.chosen)) = [].
Proof.
  split; [reflexivity | split; [reflexivity|]].
  apply (first_submission_not_short_circuited Sample.env Sample.chosen
           Sample.photo [x89; x50] x3a [x07; xbd; x50]
           (Sample.world Sample.chosen));
    reflexivity.
Defined.

(** X4. When the fingerprint cannot be computed (the file cannot be read or
    the digest fails) the run never sets the Busy Flag to true, shows no
    working toast and sends no request: it goes straight to the [catch]
    block and the cleanup, and the store keeps every field but the Busy
    Flag, which the cleanup sets to false. *)
Theorem hash_failure_path env snap f e w :
  file snap = Some f ->
  calculateFileHash env f = Throw e ->
  trace (handleUpload env snap) w =
    [DismissAll] ++
    (if status_is_413 e
     then [Toast Failure (next_toast w) too_large_message]
     else [ConsoleError "Error uploading file:" e;
           Toast Failure (next_toast w) generic_failure_message]) ++
    [SetState (setLoading false)] /\
  existsb sets_busy (trace (handleUpload env snap) w) = false /\
  existsb is_http (trace (handleUpload env snap) w) = false /\
  store_after (handleUpload env snap) w = idle (store w).
Proof.
  intros Ef Eh.
  pose proof (handleUpload_hash_throws env snap f e w Ef Eh) as E.
  rewrite (trace_extend _ _ _ _ _ _ _ E), (store_after_extend _ _ _ _ _ _ _ E).
  unfold catch_effects. destruct (status_is_413 e); repeat split.
Qed.

Lemma hash_failure_path_witness :
  file Sample.chosen = Some Sample.photo /\
  calculateFileHash Scenario.env_no_crypto Sample.photo =
    Throw (TypeError "Cannot read properties of undefined") /\
  existsb sets_busy
    (trace (handleUpload Scenario.env_no_crypto Sample.chosen)
           (Sample.world Sample.chosen)) = false.
Proof.
  split; [reflexivity | split; [reflexivity|]].
  apply (hash_failure_path Scenario.env_no_crypto Sample.chosen Sample.photo
           (TypeError "Cannot read properties of undefined")
           (Sample.world Sample.chosen)); reflexivity.
Defined.

(** X5. No run of [handleUpload] sends more than one request, and a request
    that is sent goes to the configured, non-empty address with the single
    part "file" holding the file of the handler's render, after the Busy
    Flag was set and the working toast shown. *)
Theorem upload_sends_at_most_one_request env snap w :
  List.length (filter is_http (trace (handleUpload env snap) w)) <= 1 /\
  forall url body,
    In (HttpPost url body) (trace (handleUpload env snap) w) ->
    exists f es,
      file snap = Some f /\ body = [("file", f)] /\
      env_NEXT_PUBLIC_API_URL env = Some url /\ url <> "" /\
      trace (handleUpload env snap) w =
        sending (next_toast w) ++ HttpPost url body :: es.
Proof.
  destruct (file snap) as [f|] eqn:Ef.
  2:{ rewrite (trace_extend _ _ _ _ _ _ _ (handleUpload_no_file env snap w Ef)).
      split; [simpl; lia|]. intros url body H. in_cases H. }
  destruct (handleUpload_run env snap f w Ef) as (st & n & es & R & E).
  rewrite (trace_extend _ _ _ _ _ _ _ E).
  destruct R as [e H|H|h H Hne Hu|h url e H Hne Hu Hnu Hp
                |h url H Hne Hu Hnu Hp|h url c H Hne Hu Hnu Hp];
    split_catch; (split; [simpl; lia|]); intros url' body' HIn;
    in_cases HIn; injection HIn as <- <-;
    exists f; eexists; repeat split; try eassumption; reflexivity.
Qed.

(** X6. Every run of [handleUpload] completes without throwing to its
    caller and never touches Selected File or Preview Reference.  Result
    Color and Last-Submitted Fingerprint either both stay, or the request
    resolved with data and they become that data's [hex_color] and the
    fingerprint just computed. *)
Theorem upload_frame env snap w :
  fst (handleUpload env snap w) = Ok tt /\
  file (store_after (handleUpload env snap) w) = file (store w) /\
  preview (store_after (handleUpload env snap) w) = preview (store w) /\
  ((hexColor (store_after (handleUpload env snap) w) = hexColor (store w) /\
    previousHash (store_after (handleUpload env snap) w) =
      previousHash (store w)) \/
   (exists f h url c,
      file snap = Some f /\ calculateFileHash env f = Ok h /\
      env_post env url [("file", f)] = Ok (Data c) /\
      hexColor (store_after (handleUpload env snap) w) = c /\
      previousHash (store_after (handleUpload env snap) w) = h)).
Proof.
  destruct (file snap) as [f|] eqn:Ef.
  2:{ pose proof (handleUpload_no_file env snap w Ef) as E.
      rewrite (store_after_extend _ _ _ _ _ _ _ E), E.
      repeat split. now left. }
  destruct (handleUpload_run env snap f w Ef) as (st & n & es & R & E).
  rewrite (store_after_extend _ _ _ _ _ _ _ E), E.
  destruct R as [e H|H|h H Hne Hu|h url e H Hne Hu Hnu Hp
                |h url H Hne Hu Hnu Hp|h url c H Hne Hu Hnu Hp];
    repeat split; try (left; split; reflexivity).
  right. exists f, h, url, c. repeat split; assumption.
Qed.

(** X7. No run of [handleUpload] leaves a pending toast behind: every
    [toast.loading] it creates is dismissed later in the same run, by its
    identifier or by [toast.dismiss()], or is the toast that the timer
    scheduled in the same run will dismiss. *)
Theorem working_toast_always_dismissed env snap w id :
  In id (undismissed_loading (trace (handleUpload env snap) w) []) ->
  In id (flat_map dismissed_by_timer (trace (handleUpload env snap) w)).
Proof.
  destruct (file snap) as [f|] eqn:Ef.
  2:{ rewrite (trace_extend _ _ _ _ _ _ _ (handleUpload_no_file env snap w Ef)).
      simpl. tauto. }
  destruct (handleUpload_run env snap f w Ef) as (st & n & es & R & E).
  rewrite (trace_extend _ _ _ _ _ _ _ E).
  destruct R as [e H|H|h H Hne Hu|h url e H Hne Hu Hnu Hp
                |h url H Hne Hu Hnu Hp|h url c H Hne Hu Hnu Hp];
    split_catch; simpl; rewrite ?Nat.eqb_refl; simpl; tauto.
Qed.

Lemma working_toast_always_dismissed_witness :
  In 0 (undismissed_loading
          (trace (handleUpload Sample.env Sample.processed)
                 (Sample.world Sample.processed)) []) /\
  In 0 (flat_map dismissed_by_timer
          (trace (handleUpload Sample.env Sample.processed)
                 (Sample.world Sample.processed))).
Proof.
  assert (H : In 0 (undismissed_loading
                      (trace (handleUpload Sample.env Sample.processed)
                             (Sample.world Sample.processed)) []))
    by (left; reflexivity).
  split; [exact H|].
  exact (working_toast_always_dismissed Sample.env Sample.processed
           (Sample.world Sample.processed) 0 H).
Defined.

(** X8. A click on the submit button, taken as one run, leaves the Busy
    Flag as it found it: on a busy page nothing runs, and on an idle page
    whatever the handler does ends with the flag false again. *)
Theorem click_submit_keeps_busy_flag env w :
  fst (click_submit env w) = Ok tt /\
  loading (store_after (click_submit env) w) = loading (store w).
Proof.
  unfold store_after, click_submit, render. cbn [submit_disabled].
  destruct (loading (store w)) eqn:El; [split; [reflexivity | exact El]|].
  destruct (file (store w)) as [f|] eqn:Ef.
  - destruct (handleUpload_cleanup env (store w) f w Ef)
      as (st & n & es & E & Hl).
    rewrite E. split; [reflexivity | exact Hl].
  - rewrite (handleUpload_no_file env (store w) w Ef).
    split; [reflexivity | exact El].
Qed.

(** ** Responses the endpoint is not expected to give *)

(** X9. A request that resolves with data whose [hex_color] is missing or
    empty is taken as a success: the success toast is shown and no failure
    toast, the fingerprint is recorded as submitted, Result Color becomes
    that falsy value and no swatch is rendered. *)
Theorem missing_hex_color_is_success env snap f h url c w :
  file snap = Some f ->
  calculateFileHash env f = Ok h ->
  h <> previousHash snap ->
  env_NEXT_PUBLIC_API_URL env = Some url -> url <> "" ->
  env_post env url [("file", f)] = Ok (Data c) ->
  truthy c = false ->
  success_messages (trace (handleUpload env snap) w) = [uploaded_message] /\
  failure_messages (trace (handleUpload env snap) w) = [] /\
  previousHash (store_after (handleUpload env snap) w) = h /\
  hexColor (store_after (handleUpload env snap) w) = c /\
  swatch (render (store_after (handleUpload env snap) w)) = None.
Proof.
  intros Ef Eh Hne Eu Hu Ep Hc.
  pose proof (handleUpload_resolved env snap f h url c w Ef Eh Hne Eu Hu Ep)
    as E.
  rewrite (trace_extend _ _ _ _ _ _ _ E), (store_after_extend _ _ _ _ _ _ _ E).
  repeat split. unfold render. cbn [swatch hexColor]. now rewrite Hc.
Qed.

Lemma missing_hex_color_is_success_witness :
  file Sample.chosen = Some Sample.photo /\
  calculateFileHash Scenario.env_no_color Sample.photo = Ok "3a07bd50" /\
  "3a07bd50" <> previousHash Sample.chosen /\
  previousHash (store_after (handleUpload Scenario.env_no_color Sample.chosen)
                            (Sample.world Sample.chosen)) = "3a07bd50" /\
  hexColor (store_after (handleUpload Scenario.env_no_color Sample.chosen)
                        (Sample.world Sample.chosen)) = None.
Proof.
  assert (Hne : "3a07bd50" <> previousHash Sample.chosen) by discriminate.
  assert (Hu : "https://api.example.test/color" <> "") by discriminate.
  destruct (missing_hex_color_is_success Scenario.env_no_color Sample.chosen
              Sample.photo "3a07bd50" "https://api.example.test/color" None
              (Sample.world Sample.chosen)
              eq_refl eq_refl Hne eq_refl Hu eq_refl eq_refl)
    as (_ & _ & Hp & Hc & _).
  exact (conj eq_refl (conj eq_refl (conj Hne (conj Hp Hc)))).
Defined.

(** X10. A request that resolves with nullish data shows the success toast
    and then, the read of [hex_color] having thrown, the generic failure
    toast: both appear in the same run.  Result Color and Last-Submitted
    Fingerprint stay as they were. *)
Theorem nullish_data_shows_success_then_failure env snap f h url w :
  file snap = Some f ->
  calculateFileHash env f = Ok h ->
  h <> previousHash snap ->
  env_NEXT_PUBLIC_API_URL env = Some url -> url <> "" ->
  env_post env url [("file", f)] = Ok NoData ->
  trace (handleUpload env snap) w =
    [SetState (setLoading true);
     Toast Loading (next_toast w) uploading_message;
     HttpPost url [("file", f)];
     Dismiss (next_toast w);
     Toast Success (S (next_toast w)) uploaded_message;
     DismissAll;
     ConsoleError "Error uploading file:"
       (TypeError "Cannot read properties of undefined");
     Toast Failure (S (S (next_toast w))) generic_failure_message;
     SetState (setLoading false)] /\
  hexColor (store_after (handleUpload env snap) w) = hexColor (store w) /\
  previousHash (store_after (handleUpload env snap) w) =
    previousHash (store w).
Proof.
  intros Ef Eh Hne Eu Hu Ep.
  pose proof (handleUpload_no_data env snap f h url w Ef Eh Hne Eu Hu Ep) as E.
  rewrite (trace_extend _ _ _ _ _ _ _ E), (store_after_extend _ _ _ _ _ _ _ E).
  repeat split.
Qed.

Lemma nullish_data_shows_success_then_failure_witness :
  file Sample.chosen = Some Sample.photo /\
  calculateFileHash Scenario.env_null Sample.photo = Ok "3a07bd50" /\
  "3a07bd50" <> previousHash Sample.chosen /\
  previousHash (store_after (handleUpload Scenario.env_null Sample.chosen)
                            (Sample.world Sample.chosen)) = "".
Proof.
  assert (Hne : "3a07bd50" <> previousHash Sample.chosen) by discriminate.
  assert (Hu : "https://api.example.test/color" <> "") by discriminate.
  destruct (nullish_data_shows_success_then_failure Scenario.env_null
              Sample.chosen Sample.photo "3a07bd50"
              "https://api.example.test/color" (Sample.world Sample.chosen)
              eq_refl eq_refl Hne eq_refl Hu eq_refl) as (_ & _ & Hp).
  exact (conj eq_refl (conj eq_refl (conj Hne Hp))).
Defined.

(** ** Runs one after the other *)

(** X11. Once a submission has resolved with data, submitting the same file
    again from the new render is short-circuited: the second run shows the
    "already processed" pending toast, schedules its timer, sends no
    request and leaves the store as the first run left it.  This holds
    whatever [hex_color] the data had, a missing one included. *)
Theorem resubmission_is_short_circuited env f h url c w :
  file (store w) = Some f ->
  calculateFileHash env f = Ok h ->
  h <> previousHash (store w) ->
  env_NEXT_PUBLIC_API_URL env = Some url -> url <> "" ->
  env_post env url [("file", f)] = Ok (Data c) ->
  trace (handleUpload env (store (snd (handleUpload env (store w) w))))
        (snd (handleUpload env (store w) w)) =
    [Toast Loading (2 + next_toast w) duplicate_pending_message;
     SetTimeout (DismissThenSuccess (2 + next_toast w) duplicate_done_message)
                2000;
     SetState (setLoading false)] /\
  store_after (handleUpload env (store (snd (handleUpload env (store w) w))))
              (snd (handleUpload env (store w) w)) =
    store (snd (handleUpload env (store w) w)).
Proof.
  intros Ef Eh Hne Eu Hu Ep.
  rewrite (handleUpload_resolved env (store w) f h url c w Ef Eh Hne Eu Hu Ep).
  cbn [snd]. set (w1 := extend w _ 2 0 _).
  assert (E : handleUpload env (store w1) w1 = _)
    by (apply (handleUpload_duplicate env (store w1) f w1); [exact Ef | exact Eh]).
  rewrite (trace_extend _ _ _ _ _ _ _ E), (store_after_extend _ _ _ _ _ _ _ E).
  split; reflexivity.
Qed.

Lemma resubmission_is_short_circuited_witness :
  file (store (Sample.world Sample.chosen)) = Some Sample.photo /\
  calculateFileHash Scenario.env_no_color Sample.photo = Ok "3a07bd50" /\
  trace (handleUpload Scenario.env_no_color
           (store (snd (handleUpload Scenario.env_no_color Sample.chosen
                          (Sample.world Sample.chosen)))))
        (snd (handleUpload Scenario.env_no_color Sample.chosen
                (Sample.world Sample.chosen))) =
    [Toast Loading 2 duplicate_pending_message;
     SetTimeout (DismissThenSuccess 2 duplicate_done_message) 2000;
     SetState (setLoading false)].
Proof.
  assert (Hne : "3a07bd50" <> previousHash Sample.chosen) by discriminate.
  assert (Hu : "https://api.example.test/color" <> "") by discriminate.
  destruct (resubmission_is_short_circuited Scenario.env_no_color Sample.photo
              "3a07bd50" "https://api.example.test/color" None
              (Sample.world Sample.chosen)
              eq_refl eq_refl Hne eq_refl Hu eq_refl) as (Ht & _).
  exact (conj eq_refl (conj eq_refl Ht)).
Defined.

(** X12. A failed submission leaves nothing behind that blocks a retry: once
    the endpoint answers, submitting the same file again from the new render
    sends the request and takes the answer's colour, as a first submission
    would. *)
Theorem retry_after_failure env env' f e h url c w :
  file (store w) = Some f ->
  fst (upload_try env (store w) f w) = Throw e ->
  calculateFileHash env' f = Ok h ->
  h <> previousHash (store w) ->
  env_NEXT_PUBLIC_API_URL env' = Some url -> url <> "" ->
  env_post env' url [("file", f)] = Ok (Data c) ->
  In (HttpPost url [("file", f)])
     (trace (handleUpload env' (store (snd (handleUpload env (store w) w))))
            (snd (handleUpload env (store w) w))) /\
  hexColor
    (store_after
       (handleUpload env' (store (snd (handleUpload env (store w) w))))
       (snd (handleUpload env (store w) w))) = c /\
  previousHash
    (store_after
       (handleUpload env' (store (snd (handleUpload env (store w) w))))
       (snd (handleUpload env (store w) w))) = h.
Proof.
  intros Ef Et Eh Hne Eu Hu Ep.
  destruct (handleUpload_failed env (store w) f e w Ef Et) as (n & es & E & _).
  rewrite E. cbn [snd]. set (w1 := extend w _ _ 0 _).
  assert (E' : handleUpload env' (store w1) w1 = _)
    by (apply (handleUpload_resolved env' (store w1) f h url c w1);
        assumption).
  rewrite (trace_extend _ _ _ _ _ _ _ E'),
          (store_after_extend _ _ _ _ _ _ _ E').
  repeat split. simpl. tauto.
Qed.

Lemma retry_after_failure_witness :
  file (store (Sample.world Sample.chosen)) = Some Sample.photo /\
  fst (upload_try Scenario.env_offline Sample.chosen Sample.photo
         (Sample.world Sample.chosen)) = Throw AxiosNetworkError /\
  hexColor
    (store_after
       (handleUpload Sample.env
          (store (snd (handleUpload Scenario.env_offline Sample.chosen
                         (Sample.world Sample.chosen)))))
       (snd (handleUpload Scenario.env_offline Sample.chosen
               (Sample.world Sample.chosen)))) = Some "#112233".
Proof.
  assert (Hne : "3a07bd50" <> previousHash Sample.chosen) by discriminate.
  assert (Hu : "https://api.example.test/color" <> "") by discriminate.
  destruct (retry_after_failure Scenario.env_offline Sample.env Sample.photo
              AxiosNetworkError "3a07bd50" "https://api.example.test/color"
              (Some "#112233") (Sample.world Sample.chosen)
              eq_refl eq_refl eq_refl Hne eq_refl Hu eq_refl) as (_ & Hc & _).
  exact (conj eq_refl (conj eq_refl Hc)).
Defined.

(** X13. The duplicate test reads the Last-Submitted Fingerprint of the
    handler's own render, not the live one.  A second handler of the same
    render (a second click before the first has re-rendered the page) that
    runs after the first one resolved sends the same file again, although
    the live store already holds its fingerprint. *)
Theorem stale_render_submits_twice env snap f h url c w :
  file snap = Some f ->
  calculateFileHash env f = Ok h ->
  h <> previousHash snap ->
  env_NEXT_PUBLIC_API_URL env = Some url -> url <> "" ->
  env_post env url [("file", f)] = Ok (Data c) ->
  previousHash (store (snd (handleUpload env snap w))) = h /\
  In (HttpPost url [("file", f)])
     (trace (handleUpload env snap) (snd (handleUpload env snap w))) /\
  flat_map dismissed_by_timer
     (trace (handleUpload env snap) (snd (handleUpload env snap w))) = [].
Proof.
  intros Ef Eh Hne Eu Hu Ep.
  rewrite (handleUpload_resolved env snap f h url c w Ef Eh Hne Eu Hu Ep).
  cbn [snd]. set (w1 := extend w _ 2 0 _).
  pose proof (handleUpload_resolved env snap f h url c w1 Ef Eh Hne Eu Hu Ep)
    as E.
  rewrite (trace_extend _ _ _ _ _ _ _ E).
  repeat split. simpl. tauto.
Qed.

Lemma stale_render_submits_twice_witness :
  file Sample.chosen = Some Sample.photo /\
  calculateFileHash Sample.env Sample.photo = Ok "3a07bd50" /\
  previousHash
    (store (snd (handleUpload Sample.env Sample.chosen
                   (Sample.world Sample.chosen)))) = "3a07bd50" /\
  In (HttpPost "https://api.example.test/color" [("file", Sample.photo)])
     (trace (handleUpload Sample.env Sample.chosen)
            (snd (handleUpload Sample.env Sample.chosen
                    (Sample.world Sample.chosen)))).
Proof.
  assert (Hne : "3a07bd50" <> previousHash Sample.chosen) by discriminate.
  assert (Hu : "https://api.example.test/color" <> "") by discriminate.
  destruct (stale_render_submits_twice Sample.env Sample.chosen Sample.photo
              "3a07bd50" "https://api.example.test/color" (Some "#112233")
              (Sample.world Sample.chosen)
              eq_refl eq_refl Hne eq_refl Hu eq_refl) as (Hp & Hi & _).
  exact (conj eq_refl (conj eq_refl (conj Hp Hi))).
Defined.

(** ** Intake and the swatch *)

(** X14. [handleFileChange] looks at the first file only: an empty list
    changes nothing and shows nothing, and further files make no
    difference.  On every list it completes, sends no request and leaves
    the Busy Flag and the Last-Submitted Fingerprint alone, so choosing a
    file never re-enables or disables the submit button and never forgets
    what was submitted. *)
Theorem intake_reads_first_file_only env files w :
  handleFileChange env [] w = (Ok tt, w) /\
  handleFileChange env files w = handleFileChange env (firstn 1 files) w /\
  fst (handleFileChange env files w) = Ok tt /\
  existsb is_http (trace (handleFileChange env files) w) = false /\
  loading (store_after (handleFileChange env files) w) = loading (store w) /\
  previousHash (store_after (handleFileChange env files) w) =
    previousHash (store w).
Proof.
  split; [reflexivity|]. split; [destruct files; reflexivity|].
  destruct files as [|f rest].
  { unfold trace, store_after. simpl. rewrite skipn_all. repeat split. }
  destruct (safeParse fileSchema f) as [|first others] eqn:Es.
  - pose proof (handleFileChange_accepts env f rest w Es) as E.
    rewrite (trace_extend _ _ _ _ _ _ _ E),
            (store_after_extend _ _ _ _ _ _ _ E), E.
    repeat split.
  - assert (Hne : first <> "").
    { rewrite safeParse_fileSchema in Es.
      destruct (size f <=? MAX_SIZE)%N,
               (includes ACCEPTED_TYPES (type f));
        try discriminate; injection Es as <- _; discriminate. }
    pose proof (handleFileChange_rejects env f rest w first others Es Hne)
      as E.
    rewrite (trace_extend _ _ _ _ _ _ _ E),
            (store_after_extend _ _ _ _ _ _ _ E), E.
    repeat split.
Qed.

(** X15. After a file is taken in, no swatch is rendered and a click where
    the swatch was does nothing, whatever colour was on display before; the
    preview image shows the object URL just created (object URLs are not
    empty). *)
Theorem intake_hides_swatch env f rest w :
  (size f <= MAX_SIZE)%N ->
  In (type f) ACCEPTED_TYPES ->
  env_createObjectURL env (next_url w) f <> "" ->
  swatch (render (store_after (handleFileChange env (f :: rest)) w)) = None /\
  preview_image (render (store_after (handleFileChange env (f :: rest)) w)) =
    Some (env_createObjectURL env (next_url w) f) /\
  click_swatch env (snd (handleFileChange env (f :: rest) w)) =
    (Ok tt, snd (handleFileChange env (f :: rest) w)).
Proof.
  intros Hs Ht Hu.
  assert (Es : safeParse fileSchema f = []).
  { rewrite safeParse_fileSchema.
    apply N.leb_le in Hs. apply includes_In in Ht. now rewrite Hs, Ht. }
  pose proof (handleFileChange_accepts env f rest w Es) as E.
  rewrite (store_after_extend _ _ _ _ _ _ _ E), E.
  unfold render, click_swatch. cbn.
  destruct (env_createObjectURL env (next_url w) f); [congruence|].
  repeat split.
Qed.

Lemma intake_hides_swatch_witness :
  (size Scenario.icon <= MAX_SIZE)%N /\
  In (type Scenario.icon) ACCEPTED_TYPES /\
  swatch (render (store_after (handleFileChange Sample.env [Scenario.icon])
                              (Sample.world Sample.shown))) = None.
Proof.
  assert (Hs : (size Scenario.icon <= MAX_SIZE)%N) by (vm_compute; discriminate).
  assert (Ht : In (type Scenario.icon) ACCEPTED_TYPES)
    by (right; left; reflexivity).
  assert (Hu : env_createObjectURL Sample.env
                 (next_url (Sample.world Sample.shown)) Scenario.icon <> "")
    by discriminate.
  destruct (intake_hides_swatch Sample.env Scenario.icon []
              (Sample.world Sample.shown) Hs Ht Hu) as (H & _).
  exact (conj Hs (conj Ht H)).
Defined.

(** X16. After a submission resolved with a non-empty colour the swatch
    shows exactly that colour, and a click on it writes that colour to the
    clipboard and changes nothing in the store. *)
Theorem result_can_be_copied env snap f h url c w :
  file snap = Some f ->
  calculateFileHash env f = Ok h ->
  h <> previousHash snap ->
  env_NEXT_PUBLIC_API_URL env = Some url -> url <> "" ->
  env_post env url [("file", f)] = Ok (Data (Some c)) ->
  c <> "" ->
  swatch (render (store (snd (handleUpload env snap w)))) = Some c /\
  trace (click_swatch env) (snd (handleUpload env snap w)) =
    [ClipboardWrite c;
     if env_writeText env c
     then Toast Success (2 + next_toast w) copied_message
     else Toast Failure (2 + next_toast w) copy_failed_message] /\
  store_after (click_swatch env) (snd (handleUpload env snap w)) =
    store (snd (handleUpload env snap w)).
Proof.
  intros Ef Eh Hne Eu Hu Ep Hc.
  rewrite (handleUpload_resolved env snap f h url (Some c) w
             Ef Eh Hne Eu Hu Ep).
  cbn [snd]. set (w1 := extend w _ 2 0 _).
  destruct c as [|a c]; [congruence|].
  split; [reflexivity|].
  assert (E : click_swatch env w1 =
              (Ok tt, extend w1 (store w1) 1 0
                 [ClipboardWrite (String a c);
                  if env_writeText env (String a c)
                  then Toast Success (next_toast w1) copied_message
                  else Toast Failure (next_toast w1) copy_failed_message])).
  { unfold click_swatch, render, copyToClipboard. cbn.
    unfold_run. cbn. destruct (env_writeText env (String a c)); finish_run. }
  rewrite (trace_extend _ _ _ _ _ _ _ E), (store_after_extend _ _ _ _ _ _ _ E).
  split; reflexivity.
Qed.

Lemma result_can_be_copied_witness :
  file Sample.chosen = Some Sample.photo /\
  "#112233" <> "" /\
  trace (click_swatch Sample.env)
        (snd (handleUpload Sample.env Sample.chosen
                (Sample.world Sample.chosen))) =
    [ClipboardWrite "#112233"; Toast Success 2 copied_message].
Proof.
  assert (Hne : "3a07bd50" <> previousHash Sample.chosen) by discriminate.
  assert (Hu : "https://api.example.test/color" <> "") by discriminate.
  assert (Hc : "#112233" <> "") by discriminate.
  destruct (result_can_be_copied Sample.env Sample.chosen Sample.photo
              "3a07bd50" "https://api.example.test/color" "#112233"
              (Sample.world Sample.chosen)
              eq_refl eq_refl Hne eq_refl Hu eq_refl Hc) as (_ & Ht & _).
  exact (conj eq_refl (conj Hc Ht)).
Defined.

(** X17. [copyToClipboard] never writes an empty or undefined colour: it
    writes at most once, what it writes is the non-empty Result Color of its
    render, and with a falsy Result Color it does nothing at all.  It never
    throws and never touches the store. *)
Theorem copy_never_writes_empty env snap w :
  fst (copyToClipboard env snap w) = Ok tt /\
  store_after (copyToClipboard env snap) w = store w /\
  List.length (filter is_clipboard (trace (copyToClipboard env snap) w)) <= 1 /\
  (forall text,
     In (ClipboardWrite text) (trace (copyToClipboard env snap) w) ->
     hexColor snap = Some text /\ text <> "") /\
  (truthy (hexColor snap) = false -> copyToClipboard env snap w = (Ok tt, w)).
Proof.
  unfold trace, store_after, copyToClipboard.
  destruct (hexColor snap) as [[|a c]|] eqn:Ec.
  1,3: simpl; rewrite skipn_all;
    (split; [reflexivity|]); (split; [reflexivity|]);
    (split; [simpl; lia|]); (split; [intros text [] | reflexivity]).
  unfold_run. destruct (env_writeText env (String a c)); simpl;
    rewrite <- app_assoc, skipn_length_app; simpl;
    (split; [reflexivity|]); (split; [reflexivity|]); (split; [lia|]);
    (split; [|discriminate]);
    intros text H; in_cases H; injection H as <-;
    (split; [reflexivity | discriminate]).
Qed.

(** X18. Every run of [handleUpload] ends with exactly one of its own toasts
    on screen, the last one it created: the rejection or failure toast, the
    "already processed" pending toast, or the success toast.  In
    particular the success toast of a run that then fails is swept away by
    the [toast.dismiss()] of the [catch] block. *)
Theorem one_toast_left_per_run env snap w :
  exists id k msg,
    visible_toasts (trace (handleUpload env snap) w) [] = [(id, k, msg)] /\
    S id = next_toast (snd (handleUpload env snap w)) /\
    (k = Success -> failure_messages (trace (handleUpload env snap) w) = []).
Proof.
  destruct (file snap) as [f|] eqn:Ef.
  2:{ pose proof (handleUpload_no_file env snap w Ef) as E.
      rewrite (trace_extend _ _ _ _ _ _ _ E), E.
      eexists _, _, _. repeat split. discriminate. }
  destruct (handleUpload_run env snap f w Ef) as (st & n & es & R & E).
  rewrite (trace_extend _ _ _ _ _ _ _ E), E.
  destruct R as [e H|H|h H Hne Hu|h url e H Hne Hu Hnu Hp
                |h url H Hne Hu Hnu Hp|h url c H Hne Hu Hnu Hp];
    split_catch; simpl; rewrite ?Nat.eqb_refl; simpl;
    eexists _, _, _; repeat split; discriminate.
Qed.
